(** * GenerateThumbnail: the HTTP-triggered thumbnail function

    A shallow embedding of
    [Backend-Azure-Functions/GenerateThumbnail/__init__.py].  The function
    [main] is a straight line of calls into collaborators (Pillow, the blob
    storage SDK, [uuid], [os.environ], [json]) wrapped in two [try] blocks.
    The embedding keeps that shape: an exception-and-state monad over a
    [World] that holds the object store, the number of random tokens drawn,
    the chronological list of collaborator calls and the local log.  The
    collaborators whose code is not part of the repository are variables of
    the section [Service]. *)

From Stdlib Require Import ZArith NArith QArith Qround Qabs Ascii String List Lia.
From stdpp Require Import base strings gmap list.

Local Open Scope Z_scope.
Local Open Scope string_scope.

(** ** Python values *)

Abbreviation bytes := (list Byte.byte).

(** An exception object: its class name and what [str(e)] gives. *)
Record Exception := mkException { exc_type : string; exc_str : string }.

Inductive Level := INFO | ERROR.

(** ** The request and the response *)

(** One part of a multipart body, as the request's [files] mapping holds it. *)
Record FileStorage := mkFileStorage {
  filename : string;
  content : bytes;
  content_type : string
}.

(** [bool(file)]: a file part is truthy exactly when its filename is not
    the empty string; the content plays no role. *)
Definition FileStorage_bool (f : FileStorage) : bool :=
  negb (String.eqb (filename f) "").

(** Truthiness of what [req.files.get("file")] returned: [None] is falsy. *)
Definition truthy (file : option FileStorage) : bool :=
  match file with
  | None => false
  | Some f => FileStorage_bool f
  end.

(** [req.files] is parsed on first access, which can raise; when it does
    not, it is a multi-dict whose [get] returns the first value of a key. *)
Record HttpRequest := mkHttpRequest {
  files : Exception + list (string * FileStorage)
}.

Fixpoint MultiDict_get (d : list (string * FileStorage)) (key : string)
  : option FileStorage :=
  match d with
  | [] => None
  | (k, v) :: d' => if String.eqb k key then Some v else MultiDict_get d' key
  end.

Record HttpResponse := mkHttpResponse {
  body : string;
  status_code : Z;
  mimetype : string
}.

(** [func.HttpResponse(body, status_code=...)]: the mimetype defaults to
    plain text. *)
Definition HttpResponse_text (b : string) (status : Z) : HttpResponse :=
  mkHttpResponse b status "text/plain".

(** ** Images *)

Record Image := mkImage {
  format : string;
  mode : string;
  size : Z * Z;
  pixels : bytes
}.

Definition width (im : Image) : Z := fst (size im).
Definition height (im : Image) : Z := snd (size im).

(** ** Blob storage *)

Record BlobServiceClient := mkBlobServiceClient { account_url : string }.

Record BlobClient := mkBlobClient {
  service : BlobServiceClient;
  container_name : string;
  blob_name : string
}.

Definition get_blob_client (c : BlobServiceClient) (container blob : string)
  : BlobClient :=
  mkBlobClient c container blob.

(** ** Collaborator calls, in the order they are made *)

Inductive Call :=
| CallOpen (data : bytes) (ok : bool)
| CallThumbnail (box : Z * Z) (ok : bool)
| CallSave (fmt : string) (ok : bool)
| CallUuid4 (token : N)
| CallEnviron (key : string) (ok : bool)
| CallConnect (conn_str : string) (ok : bool)
| CallUpload (container blob : string) (data : bytes) (ok : bool).

(** ** The world the function runs in *)

Record World := mkWorld {
  blobs : gmap (string * string) bytes;
  draws : nat;
  calls : list Call;
  logs : list (Level * string)
}.

Definition record_call (c : Call) (w : World) : World :=
  mkWorld (blobs w) (draws w) (calls w ++ [c]) (logs w).

Definition put_blob (container blob : string) (data : bytes) (w : World) : World :=
  mkWorld (<[(container, blob) := data]> (blobs w)) (draws w) (calls w) (logs w).

(** ** Effects: state, and state with exceptions *)

Definition Eff (A : Type) : Type := World -> A * World.
Definition M (A : Type) : Type := World -> (Exception + A) * World.

Definition ret {A} (a : A) : M A := fun w => (inr a, w).
Definition raise {A} (e : Exception) : M A := fun w => (inl e, w).
Definition bind {A B} (k : A -> M B) (m : M A) : M B :=
  fun w =>
    match m w with
    | (inl e, w') => (inl e, w')
    | (inr a, w') => k a w'
    end.

#[global] Instance M_ret : MRet M := @ret.
#[global] Instance M_bind : MBind M := @bind.

(** [try: body / except Exception as e: handler]: the world the handler
    starts from is the one the body left behind; nothing is undone. *)
Definition try_except {A} (body : M A) (handler : Exception -> Eff A) : Eff A :=
  fun w =>
    match body w with
    | (inl e, w') => handler e w'
    | (inr a, w') => (a, w')
    end.

(** A call into a collaborator: it is recorded with its outcome and either
    returns or raises. *)
Definition call {A} (c : bool -> Call) (r : Exception + A) : M A :=
  fun w =>
    match r with
    | inl e => (inl e, record_call (c false) w)
    | inr a => (inr a, record_call (c true) w)
    end.

Definition logging (lvl : Level) (msg : string) : Eff unit :=
  fun w => (tt, mkWorld (blobs w) (draws w) (calls w) (logs w ++ [(lvl, msg)])).

(** ** Random tokens: [str(uuid.uuid4())]

    A UUID is a 128-bit integer; [str] prints it as 32 lower-case
    hexadecimal digits, most significant first, cut 8-4-4-4-12 by hyphens. *)

Definition hexdigit (d : N) : ascii :=
  if (d <? 10)%N then ascii_of_N (48 + d) else ascii_of_N (87 + d).

(** ['%0kx' % n], for [n] below [16^k]. *)
Fixpoint hex_digits (k : nat) (n : N) : list ascii :=
  match k with
  | O => []
  | S k' => hex_digits k' (n / 16)%N ++ [hexdigit (n mod 16)%N]
  end.

(** The Python slice [l[i:j]]. *)
Definition slice {A} (i j : nat) (l : list A) : list A :=
  take (j - i)%nat (drop i l).

Definition UUID_str (u : N) : string :=
  let hex := hex_digits 32 u in
  string_of_list_ascii (slice 0 8 hex) +:+ "-" +:+
  string_of_list_ascii (slice 8 12 hex) +:+ "-" +:+
  string_of_list_ascii (slice 12 16 hex) +:+ "-" +:+
  string_of_list_ascii (slice 16 20 hex) +:+ "-" +:+
  string_of_list_ascii (slice 20 32 hex).

(** ** The size of a thumbnail *)

(** Modelled from the spec: [Image.thumbnail] belongs to Pillow and is not
    under src/; the function only passes it the box [(128, 128)].  The spec
    describes it as a bounding-box resize: the image is scaled so that
    neither side exceeds the box, the aspect ratio is kept up to rounding to
    whole pixels, and an image that already fits is left alone.  The model
    follows Pillow's way of rounding (of the floor and the ceiling of the
    exact quotient, the one whose ratio is nearer the image's, and never
    less than one pixel), over exact rationals rather than floats. *)
Definition round_aspect (number : Q) (key : Z -> Q) : Z :=
  let lo := Qfloor number in
  let hi := Qceiling number in
  Z.max (if Qle_bool (key lo) (key hi) then lo else hi) 1.

Definition preserve_aspect_ratio (box sz : Z * Z) : option (Z * Z) :=
  let '(x, y) := box in
  let '(w, h) := sz in
  if (w <=? x)%Z && (h <=? y)%Z then None
  else
    let aspect := (inject_Z w / inject_Z h)%Q in
    if Qle_bool aspect (inject_Z x / inject_Z y)%Q then
      Some (round_aspect (inject_Z y * aspect)%Q
              (fun n => Qabs (aspect - inject_Z n / inject_Z y)%Q), y)
    else
      Some (x, round_aspect (inject_Z x / aspect)%Q
                 (fun n => if (n =? 0)%Z then 0%Q
                           else Qabs (aspect - inject_Z x / inject_Z n)%Q)).

(** The size [im.thumbnail(box)] leaves the image with. *)
Definition thumbnail_dims (box sz : Z * Z) : Z * Z :=
  match preserve_aspect_ratio box sz with
  | None => sz
  | Some sz' => sz'
  end.

(** ** The error kinds of the spec *)

Inductive ErrorKind := MissingFile | DecodeFailure | ProcessingFailure.

(** ** The service *)

Section Service.

(** Pillow: [Image.open] on a byte buffer, the resampling of pixel data
    to a new size, and [Image.save] to a byte buffer in a named format. *)
Variable Image_open : bytes -> Exception + Image.
Variable Image_resize : Image -> Z * Z -> Exception + bytes.
Variable Image_save : Image -> string -> Exception + bytes.

(** [uuid.uuid4().int], by the number of tokens drawn before. *)
Variable uuid4 : nat -> N.

(** [os.environ]. *)
Variable environ : gmap string string.

(** The storage SDK: building a client from a connection string, the
    exception (if any) an upload ends in, and a blob client's [url]. *)
Variable from_connection_string : string -> Exception + BlobServiceClient.
Variable upload_fault : BlobClient -> bytes -> option Exception.
Variable BlobClient_url : BlobClient -> string.

(** [json.dumps] on a dict with string keys and string values, given in
    insertion order. *)
Variable json_dumps : list (string * string) -> string.

(** [im.thumbnail(box)]: nothing happens when the image fits the box,
    otherwise its pixels are resampled to the computed size.  The image
    is changed in place; here the changed image is the result. *)
Definition Image_thumbnail (im : Image) (box : Z * Z) : Exception + Image :=
  match preserve_aspect_ratio box (size im) with
  | None => inr im
  | Some sz =>
      match Image_resize im sz with
      | inl e => inl e
      | inr px => inr (mkImage (format im) (mode im) sz px)
      end
  end.

Definition uuid_uuid4 : M N :=
  fun w =>
    let u := uuid4 (draws w) in
    (inr u, record_call (CallUuid4 u)
              (mkWorld (blobs w) (S (draws w)) (calls w) (logs w))).

(** [os.environ[key]] raises [KeyError] for a key that is not set. *)
Definition os_environ (key : string) : M string :=
  call (CallEnviron key)
    match environ !! key with
    | Some v => inr v
    | None => inl (mkException "KeyError" ("'" +:+ key +:+ "'"))
    end.

(** [client.upload_blob(data, overwrite=...)]: a failed upload stores
    nothing; without [overwrite] an existing blob is an error. *)
Definition upload_blob (c : BlobClient) (data : bytes) (overwrite : bool)
  : M unit :=
  fun w =>
    let container := container_name c in
    let blob := blob_name c in
    let fault :=
      match upload_fault c data with
      | Some e => Some e
      | None =>
          if negb overwrite && bool_decide (is_Some (blobs w !! (container, blob)))
          then Some (mkException "ResourceExistsError" "The specified blob already exists.")
          else None
      end in
    match fault with
    | Some e => (inl e, record_call (CallUpload container blob data false) w)
    | None => (inr tt, record_call (CallUpload container blob data true)
                         (put_blob container blob data w))
    end.

(** Step 1, the body of the first [try]: the early return is the left
    injection, the file to process the right one. *)
Definition get_file (req : HttpRequest) : M (HttpResponse + FileStorage) :=
  d ← (fun w => (files req, w));
  let file := MultiDict_get d "file" in
  match file with
  | Some f =>
      if negb (truthy file)
      then mret (inl (HttpResponse_text "No file uploaded" 400))
      else mret (inr f)
  | None => mret (inl (HttpResponse_text "No file uploaded" 400))
  end.

Definition original_blob_name_of (u : N) (file : FileStorage) : string :=
  UUID_str u +:+ "_" +:+ filename file.

Definition thumbnail_blob_name_of (original_blob_name : string) : string :=
  "thumb_" +:+ original_blob_name.

(** Steps 2 to 7, the body of the second [try]. *)
Definition process (file : FileStorage) : M HttpResponse :=
  let image_bytes := content file in
  image ← call (CallOpen image_bytes) (Image_open image_bytes);
  let thumbnail_size := (128, 128) in
  image ← call (CallThumbnail thumbnail_size)
            (Image_thumbnail image thumbnail_size);
  thumb_buffer ← call (CallSave "JPEG") (Image_save image "JPEG");
  u ← uuid_uuid4;
  let original_blob_name := original_blob_name_of u file in
  let thumbnail_blob_name := thumbnail_blob_name_of original_blob_name in
  conn_str ← os_environ "AzureWebJobsStorage";
  blob_service_client ←
    call (CallConnect conn_str) (from_connection_string conn_str);
  let original_container := "originalimages" in
  let original_blob_client :=
    get_blob_client blob_service_client original_container original_blob_name in
  _ ← upload_blob original_blob_client image_bytes true;
  let thumbnail_container := "thumbnails" in
  let thumbnail_blob_client :=
    get_blob_client blob_service_client thumbnail_container thumbnail_blob_name in
  _ ← upload_blob thumbnail_blob_client thumb_buffer true;
  let original_url := BlobClient_url original_blob_client in
  let thumbnail_url := BlobClient_url thumbnail_blob_client in
  let response_body :=
    [("original_url", original_url); ("thumbnail_url", thumbnail_url)] in
  mret (mkHttpResponse (json_dumps response_body) 200 "application/json").

Definition main (req : HttpRequest) : Eff HttpResponse :=
  fun w =>
    let '(_, w) :=
      logging INFO "Processing an image upload to generate a thumbnail." w in
    let '(r, w) :=
      try_except (get_file req)
        (fun e w =>
           let '(_, w) := logging ERROR ("Error reading file: " +:+ exc_str e) w in
           (inl (HttpResponse_text "Error processing request" 500), w)) w in
    match r with
    | inl response => (response, w)
    | inr file =>
        try_except (process file)
          (fun e w =>
             let '(_, w) :=
               logging ERROR ("Error processing image: " +:+ exc_str e) w in
             (HttpResponse_text "Error processing image" 500, w)) w
    end.

(** *** What can go wrong once the image is decoded

    [fails_after_decode file image w]: with [image] decoded from [file],
    one of the later steps of a run started in [w] raises.  The token is
    the one a run started in [w] draws. *)
Inductive fails_after_decode (file : FileStorage) (image : Image) (w : World)
  : Prop :=
| FailThumbnail e :
    Image_thumbnail image (128, 128) = inl e ->
    fails_after_decode file image w
| FailSave thumb e :
    Image_thumbnail image (128, 128) = inr thumb ->
    Image_save thumb "JPEG" = inl e ->
    fails_after_decode file image w
| FailEnviron thumb jpeg :
    Image_thumbnail image (128, 128) = inr thumb ->
    Image_save thumb "JPEG" = inr jpeg ->
    environ !! "AzureWebJobsStorage" = None ->
    fails_after_decode file image w
| FailConnect thumb jpeg conn_str e :
    Image_thumbnail image (128, 128) = inr thumb ->
    Image_save thumb "JPEG" = inr jpeg ->
    environ !! "AzureWebJobsStorage" = Some conn_str ->
    from_connection_string conn_str = inl e ->
    fails_after_decode file image w
| FailUploadOriginal thumb jpeg conn_str client e :
    Image_thumbnail image (128, 128) = inr thumb ->
    Image_save thumb "JPEG" = inr jpeg ->
    environ !! "AzureWebJobsStorage" = Some conn_str ->
    from_connection_string conn_str = inr client ->
    upload_fault
      (get_blob_client client "originalimages"
         (original_blob_name_of (uuid4 (draws w)) file))
      (content file) = Some e ->
    fails_after_decode file image w
| FailUploadThumbnail thumb jpeg conn_str client e :
    Image_thumbnail image (128, 128) = inr thumb ->
    Image_save thumb "JPEG" = inr jpeg ->
    environ !! "AzureWebJobsStorage" = Some conn_str ->
    from_connection_string conn_str = inr client ->
    upload_fault
      (get_blob_client client "originalimages"
         (original_blob_name_of (uuid4 (draws w)) file))
      (content file) = None ->
    upload_fault
      (get_blob_client client "thumbnails"
         (thumbnail_blob_name_of (original_blob_name_of (uuid4 (draws w)) file)))
      jpeg = Some e ->
    fails_after_decode file image w.

(** [has_kind req w k]: a run on [req] started in [w] ends in an error of
    kind [k].  A failure to read the request's files is counted with the
    unexpected failures. *)
Inductive has_kind (req : HttpRequest) (w : World) : ErrorKind -> Prop :=
| KindMissingFile d :
    files req = inr d ->
    truthy (MultiDict_get d "file") = false ->
    has_kind req w MissingFile
| KindDecodeFailure d file e :
    files req = inr d ->
    MultiDict_get d "file" = Some file ->
    FileStorage_bool file = true ->
    Image_open (content file) = inl e ->
    has_kind req w DecodeFailure
| KindProcessingFailure d file image :
    files req = inr d ->
    MultiDict_get d "file" = Some file ->
    FileStorage_bool file = true ->
    Image_open (content file) = inr image ->
    fails_after_decode file image w ->
    has_kind req w ProcessingFailure
| KindRequestFailure e :
    files req = inl e ->
    has_kind req w ProcessingFailure.

End Service.

(** ** A concrete world

    Toy collaborators to run the function on: an image file is one byte
    naming the format, two bytes of width, two of height and the pixel
    payload; everything else is rejected by the decoder. *)

Module Demo.

Definition be16 (hi lo : Byte.byte) : Z :=
  Z.of_N (Byte.to_N hi) * 256 + Z.of_N (Byte.to_N lo).

Definition byte_of_Z (z : Z) : Byte.byte :=
  match Byte.of_N (Z.to_N (z mod 256)) with
  | Some b => b
  | None => Byte.x00
  end.

Definition Image_open (data : bytes) : Exception + Image :=
  match data with
  | tag :: wh :: wl :: hh :: hl :: px =>
      match tag with
      | Byte.xff => inr (mkImage "JPEG" "RGB" (be16 wh wl, be16 hh hl) px)
      | Byte.x89 => inr (mkImage "PNG" "RGB" (be16 wh wl, be16 hh hl) px)
      | Byte.x47 => inr (mkImage "GIF" "P" (be16 wh wl, be16 hh hl) px)
      | _ => inl (mkException "UnidentifiedImageError" "cannot identify image file")
      end
  | _ => inl (mkException "UnidentifiedImageError" "cannot identify image file")
  end.

Definition Image_resize (im : Image) (sz : Z * Z) : Exception + bytes :=
  inr (pixels im).

Definition Image_save (im : Image) (fmt : string) : Exception + bytes :=
  if String.eqb fmt "JPEG" then
    if String.eqb (mode im) "RGB" then
      inr (Byte.xff :: byte_of_Z (width im / 256) :: byte_of_Z (width im)
             :: byte_of_Z (height im / 256) :: byte_of_Z (height im)
             :: pixels im)
    else inl (mkException "OSError" "cannot write mode as JPEG")
  else inl (mkException "KeyError" fmt).

Definition uuid4 (k : nat) : N :=
  (0x9f1c2d3e4a5b4c6d8e7f001122334455 + N.of_nat k)%N.

Definition environ : gmap string string :=
  {[ "AzureWebJobsStorage" := "UseDevelopmentStorage=true" ]}.

Definition from_connection_string (s : string) : Exception + BlobServiceClient :=
  if String.eqb s "" then
    inl (mkException "ValueError" "Connection string is either blank or malformed.")
  else inr (mkBlobServiceClient "http://127.0.0.1:10000/devstoreaccount1").

Definition no_fault (c : BlobClient) (data : bytes) : option Exception := None.

(** A store that refuses every write to the thumbnails container. *)
Definition thumbnails_down (c : BlobClient) (data : bytes) : option Exception :=
  if String.eqb (container_name c) "thumbnails"
  then Some (mkException "HttpResponseError" "Server failed to authenticate the request.")
  else None.

(** A store that refuses every write. *)
Definition store_down (c : BlobClient) (data : bytes) : option Exception :=
  Some (mkException "ServiceRequestError" "connection refused").

Definition BlobClient_url (c : BlobClient) : string :=
  account_url (service c) +:+ "/" +:+ container_name c +:+ "/" +:+ blob_name c.

Definition dquote : string := String (ascii_of_nat 34) "".

Definition json_str (s : string) : string := dquote +:+ s +:+ dquote.

Fixpoint json_items (d : list (string * string)) : string :=
  match d with
  | [] => ""
  | [(k, v)] => json_str k +:+ ": " +:+ json_str v
  | (k, v) :: d' => json_str k +:+ ": " +:+ json_str v +:+ ", " +:+ json_items d'
  end.

Definition json_dumps (d : list (string * string)) : string :=
  "{" +:+ json_items d +:+ "}".

Definition run (environ : gmap string string)
    (upload_fault : BlobClient -> bytes -> option Exception) :=
  main Image_open Image_resize Image_save uuid4 environ
    from_connection_string upload_fault BlobClient_url json_dumps.

Definition kind (environ : gmap string string)
    (upload_fault : BlobClient -> bytes -> option Exception) :=
  has_kind Image_open Image_resize Image_save uuid4 environ
    from_connection_string upload_fault.

Definition empty_world : World := mkWorld ∅ 0 [] [].

Definition request_of (f : FileStorage) : HttpRequest :=
  mkHttpRequest (inr [("file", f)]).

(** Some uploads: a 1000 by 500 JPEG, a 100 by 60 one, a 300 by 400 PNG,
    a file that is no image, a named file with no content, and a part
    with content but an empty filename. *)
Definition jpeg_1000x500 : FileStorage :=
  mkFileStorage "photo.jpg"
    [Byte.xff; Byte.x03; Byte.xe8; Byte.x01; Byte.xf4; Byte.x2a] "image/jpeg".

Definition jpeg_100x60 : FileStorage :=
  mkFileStorage "small.jpg"
    [Byte.xff; Byte.x00; Byte.x64; Byte.x00; Byte.x3c; Byte.x07] "image/jpeg".

Definition png_300x400 : FileStorage :=
  mkFileStorage "scan.png"
    [Byte.x89; Byte.x01; Byte.x2c; Byte.x01; Byte.x90; Byte.x11] "image/png".

Definition garbage : FileStorage :=
  mkFileStorage "notes.png" [Byte.x01; Byte.x02; Byte.x03] "image/png".

Definition named_but_empty : FileStorage :=
  mkFileStorage "empty.png" [] "image/png".

Definition unnamed : FileStorage :=
  mkFileStorage "" [Byte.xff; Byte.x00; Byte.x64; Byte.x00; Byte.x3c] "image/jpeg".

(** What the toy decoder, thumbnail and encoder make of [jpeg_1000x500]. *)
Definition image_1000x500 : Image := mkImage "JPEG" "RGB" (1000, 500) [Byte.x2a].
Definition thumb_128x64 : Image := mkImage "JPEG" "RGB" (128, 64) [Byte.x2a].
Definition jpeg_128x64 : bytes :=
  [Byte.xff; Byte.x00; Byte.x80; Byte.x00; Byte.x40; Byte.x2a].
Definition client : BlobServiceClient :=
  mkBlobServiceClient "http://127.0.0.1:10000/devstoreaccount1".

End Demo.

(** * The Streamlit front end: [Frontend-Streamlit/app.py]

    The script runs top to bottom on every interaction.  Its inputs are
    what the two widgets return (the uploaded file, if any, and whether the
    button was clicked in this run); its effects are the elements it puts
    on the page and the HTTP requests it makes, recorded in order.  Pillow,
    [requests] and [st.image] are variables of the section [Script]:
    [Image.open] only reads the header, so it is [st.image] that has to
    load the pixel data and that raises when the data is broken.  The other
    calls into Streamlit put their element on the page and return. *)

Module App.

(** What [st.file_uploader] returns for a selected file. *)
Record UploadedFile := mkUploadedFile {
  name : string;
  getvalue : bytes;
  type : string
}.

(** A decoded JSON document: the script only subscripts it with string
    keys and formats what it finds, so everything that is neither a string
    nor an object is one case. *)
#[warnings="-register-all"]
Inductive JSON :=
| JString (s : string)
| JObject (items : list (string * JSON))
| JOther (repr : string).

(** A [requests.Response]; [json] is what [response.json()] does. *)
Record Response := mkResponse {
  status_code : Z;
  text : string;
  content : bytes;
  json : Exception + JSON
}.

(** The [files] argument of [requests.post]: field name to
    (filename, bytes, MIME type). *)
Abbreviation Files := (list (string * (string * bytes * string))).

(** Where an element is put. *)
Inductive Place := Page | Column (i : nat) | Expander (label : string) | Sidebar.

Inductive Element :=
| Title (s : string)
| Write (s : string)
| FileUploader (label : string) (types : list string)
| Subheader (s : string)
| Picture (image : Image) (width : option Z)
| Button (label : string)
| Success (s : string)
| Error (s : string)
| Columns (n : nat)
| Markdown (s : string)
| ExpanderBox (label : string)
| Text (s : string)
| Header (s : string)
| Info (s : string).

Inductive Event :=
| Show (p : Place) (e : Element)
| SpinnerOn (s : string)
| SpinnerOff
| Post (url : string) (files : Files) (ok : bool)
| Get (url : string) (ok : bool).

(** The script's effects: the events so far, and an exception or a value. *)
Definition Script (A : Type) : Type := list Event -> (Exception + A) * list Event.

#[global] Instance Script_ret : MRet Script := fun A a t => (inr a, t).
#[global] Instance Script_bind : MBind Script :=
  fun A B k m t =>
    match m t with
    | (inl e, t') => (inl e, t')
    | (inr a, t') => k a t'
    end.

Definition emit (ev : Event) : Script unit :=
  fun t => (inr tt, (t ++ [ev])%list).

Definition show (p : Place) (e : Element) : Script unit := emit (Show p e).

(** A call that is not recorded: it returns or raises. *)
Definition lift {A} (r : Exception + A) : Script A := fun t => (r, t).

(** An HTTP request: recorded with its outcome. *)
Definition http {A} (ev : bool -> Event) (r : Exception + A) : Script A :=
  fun t =>
    match r with
    | inl e => (inl e, (t ++ [ev false])%list)
    | inr a => (inr a, (t ++ [ev true])%list)
    end.

Definition try_except {A} (body : Script A) (handler : Exception -> Script A)
  : Script A :=
  fun t =>
    match body t with
    | (inl e, t') => handler e t'
    | (inr a, t') => (inr a, t')
    end.

Fixpoint dict_get (items : list (string * JSON)) (key : string) : option JSON :=
  match items with
  | [] => None
  | (k, v) :: items' => if String.eqb k key then Some v else dict_get items' key
  end.

Definition azure_function_url : string :=
  "<azure-storage-account-connection-string>".

Section Script.

(** Pillow's [Image.open], on the bytes of a file-like object. *)
Variable Image_open : bytes -> Exception + Image.

(** [st.image(image, width=...)]: what loading and encoding the image for
    the page ends in. *)
Variable st_image : Image -> option Z -> Exception + unit.

(** [requests.post(url, files=files)] and [requests.get(url)]. *)
Variable requests_post : string -> Files -> Exception + Response.
Variable requests_get : string -> Exception + Response.

(** [str(v)] for a JSON value that is not a string, and the [TypeError]
    that subscripting a value that is not an object raises. *)
Variable py_str : JSON -> string.
Variable not_subscriptable : JSON -> Exception.

(** [data[key]]. *)
Definition getitem (data : JSON) (key : string) : Exception + JSON :=
  match data with
  | JObject items =>
      match dict_get items key with
      | Some v => inr v
      | None => inl (mkException "KeyError" ("'" +:+ key +:+ "'"))
      end
  | _ => inl (not_subscriptable data)
  end.

(** A value inside an f-string, or as the URL given to [requests]. *)
Definition format_value (v : JSON) : string :=
  match v with
  | JString s => s
  | _ => py_str v
  end.

(** [st.image] inside a container: the picture is on the page when the
    call returns. *)
Definition draw (p : Place) (image : Image) (width : option Z) : Script unit :=
  _ ← lift (st_image image width);
  show p (Picture image width).

(** The body of the [try]. *)
Definition generate (uploaded_file : UploadedFile) : Script unit :=
  let files :=
    [("file", (name uploaded_file, getvalue uploaded_file, type uploaded_file))] in
  response ← http (Post azure_function_url files)
                  (requests_post azure_function_url files);
  if (status_code response =? 200)%Z then
    data ← lift (json response);
    original_url ← lift (getitem data "original_url");
    thumbnail_url ← lift (getitem data "thumbnail_url");
    _ ← show Page (Success "Thumbnail generated successfully!");
    _ ← show Page (Columns 2);
    _ ← show (Column 1) (Subheader "Thumbnail");
    thumbnail_response ← http (Get (format_value thumbnail_url))
                              (requests_get (format_value thumbnail_url));
    thumbnail_image ← lift (Image_open (content thumbnail_response));
    _ ← draw (Column 1) thumbnail_image None;
    _ ← show (Column 2) (Subheader "Download");
    _ ← show (Column 2)
          (Markdown ("[Download Thumbnail](" +:+ format_value thumbnail_url +:+ ")"));
    _ ← show (Column 2)
          (Markdown ("[Download Original](" +:+ format_value original_url +:+ ")"));
    _ ← show Page (ExpanderBox "Image URLs");
    _ ← show (Expander "Image URLs")
          (Text ("Original image URL: " +:+ format_value original_url));
    show (Expander "Image URLs")
      (Text ("Thumbnail URL: " +:+ format_value thumbnail_url))
  else
    show Page (Error ("Error: " +:+ text response)).

(** One run of the script. *)
Definition app (uploaded_file : option UploadedFile) (clicked : bool)
  : Script unit :=
  _ ← show Page (Title "Image Thumbnail Generator");
  _ ← show Page (Write "Upload an image to generate a thumbnail");
  _ ← show Page (FileUploader "Choose an image file" ["jpg"; "jpeg"; "png"]);
  _ ← match uploaded_file with
      | Some uploaded_file =>
          _ ← show Page (Subheader "Original Image");
          image ← lift (Image_open (getvalue uploaded_file));
          _ ← draw Page image (Some 300%Z);
          _ ← show Page (Button "Generate Thumbnail");
          if clicked then
            _ ← emit (SpinnerOn "Generating thumbnail...");
            _ ← try_except (generate uploaded_file)
                  (fun e =>
                     show Page
                       (Error ("Error connecting to Azure Function: "
                               +:+ exc_str e)));
            emit SpinnerOff
          else mret tt
      | None => mret tt
      end;
  _ ← show Sidebar (Header "About");
  show Sidebar
    (Info ("This application uses Azure Functions to generate thumbnails "
           +:+ "of your uploaded images. The original images and thumbnails "
           +:+ "are stored in Azure Blob Storage.")).

End Script.

(** What the statements below call the parts of a run: the three elements
    every run starts with, the two it ends with, and the [files] argument
    built from an uploaded file. *)
Definition page_top : list Event :=
  [Show Page (Title "Image Thumbnail Generator");
   Show Page (Write "Upload an image to generate a thumbnail");
   Show Page (FileUploader "Choose an image file" ["jpg"; "jpeg"; "png"])].

Definition sidebar : list Event :=
  [Show Sidebar (Header "About");
   Show Sidebar
     (Info ("This application uses Azure Functions to generate thumbnails "
            +:+ "of your uploaded images. The original images and thumbnails "
            +:+ "are stored in Azure Blob Storage."))].

Definition files_of (f : UploadedFile) : Files :=
  [("file", (name f, getvalue f, type f))].

End App.

(** * Concrete collaborators for the front end *)

Module DemoApp.

Definition upload : App.UploadedFile :=
  App.mkUploadedFile "photo.jpg" (content Demo.jpeg_1000x500) "image/jpeg".

Definition broken_upload : App.UploadedFile :=
  App.mkUploadedFile "notes.png" (content Demo.garbage) "image/png".

Definition py_str (v : App.JSON) : string :=
  match v with
  | App.JString s => s
  | App.JObject _ => "{...}"
  | App.JOther repr => repr
  end.

Definition not_subscriptable (v : App.JSON) : Exception :=
  mkException "TypeError" "object is not subscriptable".

Definition no_json : Exception + App.JSON :=
  inl (mkException "JSONDecodeError" "Expecting value: line 1 column 1 (char 0)").

Definition original_url : string :=
  "http://127.0.0.1:10000/devstoreaccount1/originalimages/a_photo.jpg".
Definition thumbnail_url : string :=
  "http://127.0.0.1:10000/devstoreaccount1/thumbnails/thumb_a_photo.jpg".

Definition urls : App.JSON :=
  App.JObject [("original_url", App.JString original_url);
               ("thumbnail_url", App.JString thumbnail_url)].

Definition ok_response : App.Response :=
  App.mkResponse 200 "{}" [] (inr urls).

Definition error_response : App.Response :=
  App.mkResponse 500 "Error processing image" [] no_json.

Definition thumbnail_response : App.Response :=
  App.mkResponse 200 "" Demo.jpeg_128x64 no_json.

Definition post_ok (url : string) (files : App.Files)
  : Exception + App.Response := inr ok_response.

Definition post_error (url : string) (files : App.Files)
  : Exception + App.Response := inr error_response.

Definition get_ok (url : string) : Exception + App.Response :=
  inr thumbnail_response.

Definition get_down (url : string) : Exception + App.Response :=
  inl (mkException "ConnectionError" "Max retries exceeded").

(** [st.image] on an image whose data is sound. *)
Definition st_image (image : Image) (width : option Z) : Exception + unit :=
  inr tt.

(** A toy transport: the parts arrive as they were sent (the demo's
    filename has no character that the multipart encoding touches), the
    demo service runs in world [w], and its status and body come back. *)
Definition deliver (files : App.Files) : HttpRequest :=
  mkHttpRequest
    (inr (map (fun '(field, (filename, data, mime)) =>
                 (field, mkFileStorage filename data mime)) files)).

Definition post_to_service
    (upload_fault : BlobClient -> bytes -> option Exception) (w : World)
    (url : string) (files : App.Files) : Exception + App.Response :=
  let answer := fst (Demo.run Demo.environ upload_fault (deliver files) w) in
  inr (App.mkResponse (status_code answer) (body answer) [] no_json).

(** A store that already holds an object under the name the first run of
    the demo service gives to [Demo.jpeg_1000x500]. *)
Definition occupied_world : World :=
  mkWorld
    {[ ("originalimages",
        original_blob_name_of (Demo.uuid4 0) Demo.jpeg_1000x500)
       := [Byte.x00] ]} 0 [] [].

Definition script
    (requests_post : string -> App.Files -> Exception + App.Response)
    (requests_get : string -> Exception + App.Response) :=
  App.app Demo.Image_open st_image requests_post requests_get py_str
    not_subscriptable.

End DemoApp.


(** * A concrete world with Pillow's JPEG modes

    A toy PNG names its colour type after the tag: 2 is truecolour, 3 is a
    palette, 6 is truecolour with alpha, which Pillow opens in the modes
    RGB, P and RGBA.  The encoder writes JPEG in the modes Pillow's JPEG
    plugin has, and raises for the others. *)

Module DemoPng.

Definition JPEG_modes : list string :=
  ["1"; "L"; "RGB"; "RGBX"; "CMYK"; "YCbCr"].

Definition Image_open (data : bytes) : Exception + Image :=
  match data with
  | Byte.x89 :: colour_type :: wh :: wl :: hh :: hl :: px =>
      match colour_type with
      | Byte.x02 => inr (mkImage "PNG" "RGB" (Demo.be16 wh wl, Demo.be16 hh hl) px)
      | Byte.x03 => inr (mkImage "PNG" "P" (Demo.be16 wh wl, Demo.be16 hh hl) px)
      | Byte.x06 => inr (mkImage "PNG" "RGBA" (Demo.be16 wh wl, Demo.be16 hh hl) px)
      | _ => inl (mkException "UnidentifiedImageError" "cannot identify image file")
      end
  | _ => inl (mkException "UnidentifiedImageError" "cannot identify image file")
  end.

Definition Image_save (im : Image) (fmt : string) : Exception + bytes :=
  if String.eqb fmt "JPEG" then
    if existsb (String.eqb (mode im)) JPEG_modes then
      inr (Byte.xff :: Demo.byte_of_Z (width im / 256) :: Demo.byte_of_Z (width im)
             :: Demo.byte_of_Z (height im / 256) :: Demo.byte_of_Z (height im)
             :: pixels im)
    else inl (mkException "OSError" ("cannot write mode " +:+ mode im +:+ " as JPEG"))
  else inl (mkException "KeyError" fmt).

Definition run :=
  main Image_open Demo.Image_resize Image_save Demo.uuid4 Demo.environ
    Demo.from_connection_string Demo.no_fault Demo.BlobClient_url
    Demo.json_dumps.

(** A 2 by 2 PNG with an alpha channel, and the image it decodes to. *)
Definition rgba_png : FileStorage :=
  mkFileStorage "logo.png"
    [Byte.x89; Byte.x06; Byte.x00; Byte.x02; Byte.x00; Byte.x02; Byte.x7f]
    "image/png".

Definition rgba_image : Image := mkImage "PNG" "RGBA" (2, 2) [Byte.x7f].

End DemoPng.

(** * Properties *)

(** ** The printed form of a UUID *)

Lemma N_of_hexdigit (d : N) :
  (d < 16)%N ->
  N_of_ascii (hexdigit d) = if (d <? 10)%N then (48 + d)%N else (87 + d)%N.
Proof.
  intros Hd. unfold hexdigit.
  destruct (d <? 10)%N; apply N_ascii_embedding; lia.
Qed.

Lemma hexdigit_inj (d1 d2 : N) :
  (d1 < 16)%N -> (d2 < 16)%N -> hexdigit d1 = hexdigit d2 -> d1 = d2.
Proof.
  intros H1 H2 Heq. apply (f_equal N_of_ascii) in Heq.
  rewrite !N_of_hexdigit in Heq by assumption.
  destruct (d1 <? 10)%N eqn:E1, (d2 <? 10)%N eqn:E2;
    try apply N.ltb_lt in E1; try apply N.ltb_lt in E2;
    try apply N.ltb_ge in E1; try apply N.ltb_ge in E2; lia.
Qed.

(** No hexadecimal digit is the letter t. *)
Lemma hexdigit_not_t (d : N) : (d < 16)%N -> hexdigit d <> "t"%char.
Proof.
  intros Hd Heq. apply (f_equal N_of_ascii) in Heq.
  rewrite N_of_hexdigit in Heq by assumption.
  cbn in Heq.
  destruct (d <? 10)%N eqn:E;
    [apply N.ltb_lt in E | apply N.ltb_ge in E]; lia.
Qed.

Lemma hex_digits_inj (k : nat) (n m : N) :
  (n < 16 ^ N.of_nat k)%N -> (m < 16 ^ N.of_nat k)%N ->
  hex_digits k n = hex_digits k m -> n = m.
Proof.
  revert n m. induction k as [|k IH]; intros n m Hn Hm Heq.
  - cbn in Hn, Hm. lia.
  - cbn [hex_digits] in Heq. apply app_inj_tail in Heq as [Hhi Hlo].
    rewrite Nat2N.inj_succ, N.pow_succ_r' in Hn, Hm.
    assert (n / 16 = m / 16)%N as Hq.
    { apply IH; [apply N.Div0.div_lt_upper_bound | apply N.Div0.div_lt_upper_bound | ];
        assumption. }
    assert (n mod 16 = m mod 16)%N as Hr.
    { apply hexdigit_inj; [apply N.mod_lt | apply N.mod_lt |]; try lia. assumption. }
    rewrite (N.div_mod n 16), (N.div_mod m 16) by lia. congruence.
Qed.

Ltac spell_uuid :=
  unfold UUID_str;
  cbn [hex_digits app slice take drop Nat.sub string_of_list_ascii String.append].

(** Two names that start with the printed form of a UUID agree only if the
    UUIDs do. *)
Lemma UUID_str_prefix_inj (u1 u2 : N) (s1 s2 : string) :
  (u1 < 2 ^ 128)%N -> (u2 < 2 ^ 128)%N ->
  UUID_str u1 +:+ s1 = UUID_str u2 +:+ s2 -> u1 = u2.
Proof.
  intros H1 H2 Heq.
  apply (hex_digits_inj 32); [exact H1 | exact H2 |].
  revert Heq. spell_uuid. intros Heq.
  injection Heq as ?. 
  cbn [hex_digits app]. congruence.
Qed.

Lemma UUID_str_head (u : N) :
  exists d rest, (d < 16)%N /\ UUID_str u = String (hexdigit d) rest.
Proof.
  spell_uuid. eexists _, _. split; [|reflexivity].
  apply N.mod_lt. lia.
Qed.

(** A name that starts with a UUID never starts with the thumbnail tag. *)
Lemma UUID_name_not_thumb (u : N) (s s' : string) :
  UUID_str u +:+ s <> "thumb_" +:+ s'.
Proof.
  destruct (UUID_str_head u) as (d & rest & Hd & ->).
  cbn [String.append]. intros Heq. injection Heq as Hc _.
  exact (hexdigit_not_t d Hd Hc).
Qed.

(** ** Thumbnail sizes *)

Lemma Qfloor_quotient (q : Q) (a b : Z) :
  0 < b -> (q == inject_Z a / inject_Z b)%Q -> Qfloor q = a / b.
Proof.
  intros Hb Hq.
  destruct b as [|p|p]; try lia.
  assert (q == a # p)%Q as Hq'
    by (etransitivity; [exact Hq | symmetry; apply Qmake_Qdiv]).
  rewrite (Qfloor_comp _ _ Hq'). reflexivity.
Qed.

Lemma Qceiling_quotient (q : Q) (a b : Z) :
  0 < b -> (q == inject_Z a / inject_Z b)%Q -> Qceiling q = - ((- a) / b).
Proof.
  intros Hb Hq. unfold Qceiling. f_equal.
  apply Qfloor_quotient; [assumption|].
  rewrite Hq, inject_Z_opp. field.
  intros H0. apply (inject_Z_injective b 0) in H0. lia.
Qed.

Lemma aspect_le_one (w h : Z) :
  0 < h ->
  Qle_bool (inject_Z w / inject_Z h) (inject_Z 128 / inject_Z 128) = true <-> w <= h.
Proof.
  intros Hh. rewrite Qle_bool_iff.
  destruct h as [|p|p]; try lia.
  assert (inject_Z w / inject_Z (Z.pos p) <= inject_Z 128 / inject_Z 128
          <-> w # p <= 128 # 128)%Q as ->
    by (rewrite <- !Qmake_Qdiv; reflexivity).
  unfold Qle; cbn [Qnum Qden]. lia.
Qed.

(** Whatever the key prefers, the rounded value is within one of the exact
    quotient and at least one. *)
Lemma round_aspect_near (q : Q) (key : Z -> Q) (a b : Z) :
  0 < a -> 0 < b -> (q == inject_Z a / inject_Z b)%Q ->
  let r := round_aspect q key in
  1 <= r /\ Z.abs (r * b - a) < b /\ (a <= 128 * b -> r <= 128).
Proof.
  intros Ha Hb Hq r. subst r. unfold round_aspect.
  rewrite (Qfloor_quotient q a b Hb Hq), (Qceiling_quotient q a b Hb Hq).
  pose proof (Z.div_mod a b ltac:(lia)) as Hdm.
  pose proof (Z.mod_pos_bound a b Hb) as Hm.
  pose proof (Z.div_mod (- a) b ltac:(lia)) as Hdm'.
  pose proof (Z.mod_pos_bound (- a) b Hb) as Hm'.
  assert (0 <= a / b) by (apply Z.div_pos; lia).
  destruct (Qle_bool _ _); nia.
Qed.

Lemma thumbnail_dims_fit (iw ih : Z) :
  1 <= iw -> 1 <= ih ->
  let '(tw, th) := thumbnail_dims (128, 128) (iw, ih) in
  let D := Z.max 128 (Z.max iw ih) in
  1 <= tw <= 128 /\ 1 <= th <= 128
  /\ Z.abs (tw * D - 128 * iw) < D /\ Z.abs (th * D - 128 * ih) < D
  /\ (iw <= 128 -> ih <= 128 -> (tw, th) = (iw, ih))
  /\ (128 < iw \/ 128 < ih -> Z.max tw th = 128).
Proof.
  intros Hw Hh. unfold thumbnail_dims, preserve_aspect_ratio.
  destruct (andb _ _) eqn:Hfit.
  - apply andb_true_iff in Hfit as [H1 H2].
    apply Z.leb_le in H1, H2. cbv zeta. repeat split; try lia.
  - apply andb_false_iff in Hfit.
    assert (128 < iw \/ 128 < ih) as Hbig
      by (destruct Hfit as [H|H]; apply Z.leb_gt in H; lia).
    destruct (Qle_bool _ _) eqn:Hasp.
    + apply aspect_le_one in Hasp; [|lia].
      assert (inject_Z 128 * (inject_Z iw / inject_Z ih)
              == inject_Z (128 * iw) / inject_Z ih)%Q as Hq.
      { rewrite inject_Z_mult. field.
        intros H0. apply (inject_Z_injective ih 0) in H0. lia. }
      pose proof (round_aspect_near _
                    (fun n => Qabs (inject_Z iw / inject_Z ih
                                    - inject_Z n / inject_Z 128)%Q)
                    (128 * iw) ih ltac:(lia) ltac:(lia) Hq) as (R1 & R2 & R3).
      cbv zeta in *. replace (Z.max 128 (Z.max iw ih)) with ih by lia.
      repeat split; try lia.
    + assert (~ iw <= ih) as Hasp'
        by (intros H; apply aspect_le_one in H; [congruence | lia]).
      assert (inject_Z 128 / (inject_Z iw / inject_Z ih)
              == inject_Z (128 * ih) / inject_Z iw)%Q as Hq.
      { rewrite inject_Z_mult. field. split.
        - intros H0. apply (inject_Z_injective iw 0) in H0. lia.
        - intros H0. apply (inject_Z_injective ih 0) in H0. lia. }
      pose proof (round_aspect_near _
                    (fun n => if (n =? 0)%Z then 0%Q
                              else Qabs (inject_Z iw / inject_Z ih
                                         - inject_Z 128 / inject_Z n)%Q)
                    (128 * ih) iw ltac:(lia) ltac:(lia) Hq) as (R1 & R2 & R3).
      cbv zeta in *. replace (Z.max 128 (Z.max iw ih)) with iw by lia.
      repeat split; try lia.
Qed.

(** ** Running the service *)

Ltac simpl_run :=
  cbn [fst snd blobs draws calls logs negb andb status_code body mimetype
       HttpResponse_text get_blob_client container_name blob_name] in *.

Ltac run_service :=
  unfold main, try_except, get_file, process, upload_blob, os_environ,
    uuid_uuid4, call, logging, mbind, M_bind, bind, mret, M_ret, ret,
    record_call, put_blob, truthy in *;
  simpl_run.

(** Case analysis on the next collaborator result the run depends on. *)
Ltac step :=
  match goal with
  | |- context [match ?x with _ => _ end] =>
      lazymatch x with
      | context [match _ with _ => _ end] => fail
      | _ => destruct x eqn:?
      end
  end; simpl_run.

(** Use the equations at hand for the collaborator results the run asks for. *)
Ltac use_results :=
  repeat match goal with
         | H : ?l = _ |- context [?l] => rewrite H; simpl_run
         end.

(** Bring the calls of a run to the form [calls w ++ [c1; ...; cn]]. *)
Ltac norm_calls := rewrite <- ?app_assoc; cbn [app].

(** Find which call of an explicit list a lookup hypothesis speaks of. *)
Ltac locate_call H :=
  repeat match type of H with
         | (?c :: ?l) !! ?i = Some ?c' =>
             destruct i as [|?];
             [ change (Some c = Some c') in H; try discriminate H
             | match type of H with
               | _ !! S ?n = _ => change (l !! n = Some c') in H
               end ]
         | [] !! _ = Some _ => rewrite lookup_nil in H; discriminate H
         end.

Section Properties.

Variable Image_open : bytes -> Exception + Image.
Variable Image_resize : Image -> Z * Z -> Exception + bytes.
Variable Image_save : Image -> string -> Exception + bytes.
Variable uuid4 : nat -> N.
Variable environ : gmap string string.
Variable from_connection_string : string -> Exception + BlobServiceClient.
Variable upload_fault : BlobClient -> bytes -> option Exception.
Variable BlobClient_url : BlobClient -> string.
Variable json_dumps : list (string * string) -> string.

Local Abbreviation generateThumbnail :=
  (main Image_open Image_resize Image_save uuid4 environ
     from_connection_string upload_fault BlobClient_url json_dumps).
Local Abbreviation thumbnail := (Image_thumbnail Image_resize).

(** C1. A request whose file decodes, whose thumbnail is computed and
    encoded, with the connection string set and a store that accepts both
    uploads: the calls made are the eight of the happy path, of which
    exactly two are uploads (the original bytes to [originalimages], then
    the thumbnail bytes to [thumbnails]), the store holds both objects,
    and the response is 200 with the JSON of the two URLs. *)
Theorem success_two_writes_and_urls
    (req : HttpRequest) (d : list (string * FileStorage)) (file : FileStorage)
    (w : World) (image thumb : Image) (jpeg : bytes) (conn_str : string)
    (client : BlobServiceClient) :
  files req = inr d ->
  MultiDict_get d "file" = Some file ->
  FileStorage_bool file = true ->
  Image_open (content file) = inr image ->
  thumbnail image (128, 128) = inr thumb ->
  Image_save thumb "JPEG" = inr jpeg ->
  environ !! "AzureWebJobsStorage" = Some conn_str ->
  from_connection_string conn_str = inr client ->
  let name := original_blob_name_of (uuid4 (draws w)) file in
  let original_blob_client := get_blob_client client "originalimages" name in
  let thumbnail_blob_client := get_blob_client client "thumbnails" (thumbnail_blob_name_of name) in
  upload_fault original_blob_client (content file) = None ->
  upload_fault thumbnail_blob_client jpeg = None ->
  let '(response, w') := generateThumbnail req w in
  response =
    mkHttpResponse
      (json_dumps [("original_url", BlobClient_url original_blob_client);
                   ("thumbnail_url", BlobClient_url thumbnail_blob_client)])
      200 "application/json"
  /\ calls w' =
       (calls w ++
        [CallOpen (content file) true; CallThumbnail (128, 128) true;
        CallSave "JPEG" true; CallUuid4 (uuid4 (draws w));
        CallEnviron "AzureWebJobsStorage" true; CallConnect conn_str true;
        CallUpload "originalimages" name (content file) true;
        CallUpload "thumbnails" (thumbnail_blob_name_of name) jpeg true])%list
  /\ blobs w' =
       <[("thumbnails", thumbnail_blob_name_of name) := jpeg]>
         (<[("originalimages", name) := content file]> (blobs w)).
Proof.
  intros Hfiles Hget Hbool Hopen Hthumb Hsave Henv Hconn name oc tc Hup1 Hup2.
  subst name oc tc. run_service.
  rewrite Hfiles, Hget, Hbool; simpl_run.
  rewrite Hopen, Hthumb, Hsave, Henv, Hconn; simpl_run.
  unfold get_blob_client in *.
  rewrite Hup1; simpl_run. rewrite Hup2; simpl_run.
  repeat split.
  rewrite <- !app_assoc. reflexivity.
Qed.

(** A run that answers 200 went through every step. *)
Lemma success_inv (req : HttpRequest) (w : World) :
  status_code (fst (generateThumbnail req w)) = 200 ->
  exists d file image thumb jpeg conn_str client,
    let name := original_blob_name_of (uuid4 (draws w)) file in
    files req = inr d
    /\ MultiDict_get d "file" = Some file
    /\ FileStorage_bool file = true
    /\ Image_open (content file) = inr image
    /\ thumbnail image (128, 128) = inr thumb
    /\ Image_save thumb "JPEG" = inr jpeg
    /\ environ !! "AzureWebJobsStorage" = Some conn_str
    /\ from_connection_string conn_str = inr client
    /\ blobs (snd (generateThumbnail req w)) =
         <[("thumbnails", thumbnail_blob_name_of name) := jpeg]>
           (<[("originalimages", name) := content file]> (blobs w))
    /\ draws (snd (generateThumbnail req w)) = S (draws w).
Proof.
  run_service.
  repeat step; try (intros; discriminate).
  intros _. apply negb_false_iff in Heqb.
  repeat eexists; eauto.
Qed.

Lemma thumbnail_size (im t : Image) (box : Z * Z) :
  thumbnail im box = inr t -> size t = thumbnail_dims box (size im).
Proof.
  unfold Image_thumbnail, thumbnail_dims.
  destruct (preserve_aspect_ratio box (size im)) as [sz|].
  - destruct (Image_resize im sz); intros Heq; simplify_eq. reflexivity.
  - intros Heq; simplify_eq. reflexivity.
Qed.

(** C2. When a request succeeds on an image of [iw] by [ih] pixels, the
    thumbnail that is encoded and stored has both sides between 1 and
    128; each side is within one pixel of the image's side scaled by
    [128 / max(128, iw, ih)], the same factor for both sides; an image
    that fits the box keeps its size, and a larger one has its longer
    side at exactly 128. *)
Theorem thumbnail_fits_box_keeps_aspect
    (req : HttpRequest) (d : list (string * FileStorage)) (file : FileStorage)
    (w : World) (image : Image) (iw ih : Z) :
  files req = inr d ->
  MultiDict_get d "file" = Some file ->
  Image_open (content file) = inr image ->
  size image = (iw, ih) ->
  1 <= iw -> 1 <= ih ->
  status_code (fst (generateThumbnail req w)) = 200 ->
  exists thumb jpeg,
    thumbnail image (128, 128) = inr thumb
    /\ Image_save thumb "JPEG" = inr jpeg
    /\ blobs (snd (generateThumbnail req w))
         !! ("thumbnails",
             thumbnail_blob_name_of
               (original_blob_name_of (uuid4 (draws w)) file)) = Some jpeg
    /\ let '(tw, th) := size thumb in
       let scale_den := Z.max 128 (Z.max iw ih) in
       1 <= tw <= 128 /\ 1 <= th <= 128
       /\ Z.abs (tw * scale_den - 128 * iw) < scale_den
       /\ Z.abs (th * scale_den - 128 * ih) < scale_den
       /\ (iw <= 128 -> ih <= 128 -> (tw, th) = (iw, ih))
       /\ (128 < iw \/ 128 < ih -> Z.max tw th = 128).
Proof.
  intros Hfiles Hget Hopen Hsize Hw Hh H200.
  destruct (success_inv req w H200)
    as (d' & file' & image' & thumb & jpeg & conn_str & client & Hinv).
  cbv zeta in Hinv.
  destruct Hinv as (Hf & Hg & _ & Ho & Ht & Hs & _ & _ & Hblobs & _).
  rewrite Hfiles in Hf. injection Hf as <-.
  rewrite Hget in Hg. injection Hg as <-.
  rewrite Hopen in Ho. injection Ho as <-.
  exists thumb, jpeg. split; [exact Ht|]. split; [exact Hs|]. split.
  - rewrite Hblobs. apply lookup_insert_eq.
  - rewrite (thumbnail_size _ _ _ Ht), Hsize.
    exact (thumbnail_dims_fit iw ih Hw Hh).
Qed.

(** C3. Two successful requests, one after the other, whose tokens are
    distinct 128-bit values: each stores its original under the printed
    token, an underscore and the filename, and its thumbnail under that
    name prefixed with [thumb_]; the four names are pairwise distinct, and
    after the second request the objects of the first are still there
    with the bytes the first request wrote. *)
Theorem distinct_tokens_distinct_objects
    (req1 req2 : HttpRequest) (w : World) :
  let run1 := generateThumbnail req1 w in
  let run2 := generateThumbnail req2 (snd run1) in
  let u1 := uuid4 (draws w) in
  let u2 := uuid4 (draws (snd run1)) in
  status_code (fst run1) = 200 ->
  status_code (fst run2) = 200 ->
  (u1 < 2 ^ 128)%N -> (u2 < 2 ^ 128)%N ->
  u1 <> u2 ->
  exists d1 d2 file1 file2 jpeg1 jpeg2,
    let n1 := UUID_str u1 +:+ "_" +:+ filename file1 in
    let n2 := UUID_str u2 +:+ "_" +:+ filename file2 in
    let t1 := "thumb_" +:+ n1 in
    let t2 := "thumb_" +:+ n2 in
    (files req1 = inr d1 /\ MultiDict_get d1 "file" = Some file1)
    /\ (files req2 = inr d2 /\ MultiDict_get d2 "file" = Some file2)
    /\ blobs (snd run1) =
         <[("thumbnails", t1) := jpeg1]>
           (<[("originalimages", n1) := content file1]> (blobs w))
    /\ blobs (snd run2) =
         <[("thumbnails", t2) := jpeg2]>
           (<[("originalimages", n2) := content file2]> (blobs (snd run1)))
    /\ NoDup [n1; t1; n2; t2]
    /\ blobs (snd run2) !! ("originalimages", n1) = Some (content file1)
    /\ blobs (snd run2) !! ("thumbnails", t1) = Some jpeg1.
Proof.
  intros run1 run2 u1 u2 H1 H2 Hu1 Hu2 Hne.
  destruct (success_inv req1 w H1)
    as (d1 & file1 & image1 & thumb1 & jpeg1 & c1 & cl1 & Hinv1).
  destruct (success_inv req2 (snd run1) H2)
    as (d2 & file2 & image2 & thumb2 & jpeg2 & c2 & cl2 & Hinv2).
  cbv zeta in Hinv1, Hinv2.
  destruct Hinv1 as (Hf1 & Hg1 & _ & _ & _ & _ & _ & _ & Hb1 & _).
  destruct Hinv2 as (Hf2 & Hg2 & _ & _ & _ & _ & _ & _ & Hb2 & _).
  fold run1 in Hb1. fold run2 in Hb2. fold u1 in Hb1. fold u2 in Hb2.
  unfold thumbnail_blob_name_of, original_blob_name_of in Hb1, Hb2.
  exists d1, d2, file1, file2, jpeg1, jpeg2. cbv zeta.
  set (n1 := UUID_str u1 +:+ "_" +:+ filename file1) in *.
  set (n2 := UUID_str u2 +:+ "_" +:+ filename file2) in *.
  assert (n1 <> n2) as Hn12.
  { intros Heq. apply Hne. exact (UUID_str_prefix_inj _ _ _ _ Hu1 Hu2 Heq). }
  assert (forall a b : string, "thumb_" +:+ a = "thumb_" +:+ b -> a = b) as Hthumb.
  { intros a b Heq. cbn [String.append] in Heq. injection Heq. auto. }
  assert (forall s, n1 <> "thumb_" +:+ s) as Hn1 by (intros s; apply UUID_name_not_thumb).
  assert (forall s, n2 <> "thumb_" +:+ s) as Hn2 by (intros s; apply UUID_name_not_thumb).
  clearbody n1 n2.
  repeat split; try assumption.
  - repeat constructor; rewrite ?elem_of_cons, ?elem_of_nil.
    + intros [H|[H|[H|[]]]];
        [exact (Hn1 _ H) | exact (Hn12 H) | exact (Hn1 _ H)].
    + intros [H|[H|[]]];
        [exact (Hn2 _ (eq_sym H)) | exact (Hn12 (Hthumb _ _ H))].
    + intros [H|[]]. exact (Hn2 _ H).
    + intros [].
  - rewrite Hb2, Hb1.
    rewrite lookup_insert_ne by (intros Heq; discriminate Heq).
    rewrite lookup_insert_ne by congruence.
    rewrite lookup_insert_ne by (intros Heq; discriminate Heq).
    apply lookup_insert_eq.
  - rewrite Hb2, Hb1.
    rewrite lookup_insert_ne
      by (intros Heq; apply Hn12; symmetry; apply Hthumb; congruence).
    rewrite lookup_insert_ne by (intros Heq; discriminate Heq).
    apply lookup_insert_eq.
Qed.

Lemma missing_file_cases
    (req : HttpRequest) (d : list (string * FileStorage)) (w : World) :
  files req = inr d ->
  truthy (MultiDict_get d "file") = false ->
  fst (generateThumbnail req w) = HttpResponse_text "No file uploaded" 400.
Proof.
  intros Hfiles Hfalsy. run_service. rewrite Hfiles; simpl_run.
  destruct (MultiDict_get d "file") as [file|]; simpl_run; [|reflexivity].
  rewrite Hfalsy; simpl_run. reflexivity.
Qed.

(** C4, as the code has it.  When [req.files.get("file")] is falsy (no
    part of that name, or a part whose filename is empty) the answer is
    400 [No file uploaded], no collaborator is called (so nothing is
    decoded) and the store is unchanged.  A part with a filename is
    truthy whatever its content: it goes to the decoder, and the answer is
    never 400. *)
Theorem missing_file_is_400
    (req : HttpRequest) (d : list (string * FileStorage)) (w : World) :
  files req = inr d ->
  (truthy (MultiDict_get d "file") = false ->
     fst (generateThumbnail req w) = HttpResponse_text "No file uploaded" 400
     /\ calls (snd (generateThumbnail req w)) = calls w
     /\ blobs (snd (generateThumbnail req w)) = blobs w)
  /\ (truthy (MultiDict_get d "file") = true ->
      exists file ok rest,
        MultiDict_get d "file" = Some file
        /\ calls (snd (generateThumbnail req w))
           = (calls w ++ CallOpen (content file) ok :: rest)%list
        /\ status_code (fst (generateThumbnail req w)) <> 400).
Proof.
  intros Hfiles. run_service. rewrite Hfiles; simpl_run.
  destruct (MultiDict_get d "file") as [file|]; simpl_run.
  - destruct (FileStorage_bool file) eqn:Hbool; simpl_run.
    + split; [discriminate|]. intros _. exists file.
      repeat step; norm_calls;
        (eexists _, _; split; [reflexivity|]; split; [reflexivity|];
         discriminate).
    + split; [|discriminate]. intros _. repeat split.
  - split; [|discriminate]. intros _. repeat split.
Qed.

(** C5. A file that passes the check and that the decoder rejects: the
    answer is 500 [Error processing image], the only call made is the
    failed decoding, and the store is unchanged. *)
Theorem decode_failure_is_500_without_writes
    (req : HttpRequest) (d : list (string * FileStorage)) (file : FileStorage)
    (w : World) (e : Exception) :
  files req = inr d ->
  MultiDict_get d "file" = Some file ->
  FileStorage_bool file = true ->
  Image_open (content file) = inl e ->
  fst (generateThumbnail req w) = HttpResponse_text "Error processing image" 500
  /\ calls (snd (generateThumbnail req w))
     = (calls w ++ [CallOpen (content file) false])%list
  /\ blobs (snd (generateThumbnail req w)) = blobs w.
Proof.
  intros Hfiles Hget Hbool Hopen. run_service.
  rewrite Hfiles, Hget, Hbool; simpl_run. rewrite Hopen; simpl_run.
  repeat split.
Qed.

Local Abbreviation fails_after_decode :=
  (fails_after_decode Image_resize Image_save uuid4 environ
     from_connection_string upload_fault).
Local Abbreviation has_kind :=
  (has_kind Image_open Image_resize Image_save uuid4 environ
     from_connection_string upload_fault).

(** Every failure after the decoding ends in the same answer. *)
Lemma failure_after_decode_response
    (req : HttpRequest) (d : list (string * FileStorage)) (file : FileStorage)
    (w : World) (image : Image) :
  files req = inr d ->
  MultiDict_get d "file" = Some file ->
  FileStorage_bool file = true ->
  Image_open (content file) = inr image ->
  fails_after_decode file image w ->
  fst (generateThumbnail req w) = HttpResponse_text "Error processing image" 500.
Proof.
  intros Hfiles Hget Hbool Hopen Hfail. run_service.
  rewrite Hfiles, Hget, Hbool; simpl_run. rewrite Hopen; simpl_run.
  destruct Hfail; simpl_run; use_results; reflexivity.
Qed.

(** C7, as the code has it.  A missing file is answered 400; a decoding
    failure and a processing failure are both answered 500 in plain text,
    and when the request's files could be read the two carry the same
    body.  The status code tells a missing file from the other two kinds
    and does not tell those two apart. *)
Theorem error_kind_response (req : HttpRequest) (w : World) (k : ErrorKind) :
  has_kind req w k ->
  let response := fst (generateThumbnail req w) in
  match k with
  | MissingFile => response = HttpResponse_text "No file uploaded" 400
  | DecodeFailure => response = HttpResponse_text "Error processing image" 500
  | ProcessingFailure =>
      response = HttpResponse_text "Error processing image" 500
      \/ (exists e, files req = inl e)
         /\ response = HttpResponse_text "Error processing request" 500
  end.
Proof.
  intros Hkind response. subst response.
  destruct Hkind as [d Hfiles Hfalsy | d file e Hfiles Hget Hbool Hopen
                    | d file image Hfiles Hget Hbool Hopen Hfail | e Hfiles].
  - apply (missing_file_cases req d w Hfiles Hfalsy).
  - run_service. rewrite Hfiles, Hget, Hbool; simpl_run.
    rewrite Hopen; simpl_run. reflexivity.
  - left. eapply failure_after_decode_response; eassumption.
  - right. split; [eauto|]. run_service. rewrite Hfiles; simpl_run. reflexivity.
Qed.

(** C8. With the image decoded, a failure of any later step (the
    thumbnail, the encoding, the connection string, the client, either
    upload) is answered 500 [Error processing image].  When it is the
    thumbnail upload that fails after the original was uploaded, the
    original stays in the store under its name with the uploaded bytes,
    nothing is stored under the thumbnail's name, and no call follows the
    failed upload: nothing is undone. *)
Theorem processing_failure_is_500_no_rollback
    (req : HttpRequest) (d : list (string * FileStorage)) (file : FileStorage)
    (w : World) (image : Image) :
  files req = inr d ->
  MultiDict_get d "file" = Some file ->
  FileStorage_bool file = true ->
  Image_open (content file) = inr image ->
  let response := fst (generateThumbnail req w) in
  let w' := snd (generateThumbnail req w) in
  let name := original_blob_name_of (uuid4 (draws w)) file in
  (fails_after_decode file image w ->
     response = HttpResponse_text "Error processing image" 500)
  /\ (forall thumb jpeg conn_str client e,
        thumbnail image (128, 128) = inr thumb ->
        Image_save thumb "JPEG" = inr jpeg ->
        environ !! "AzureWebJobsStorage" = Some conn_str ->
        from_connection_string conn_str = inr client ->
        upload_fault (get_blob_client client "originalimages" name)
          (content file) = None ->
        upload_fault
          (get_blob_client client "thumbnails" (thumbnail_blob_name_of name))
          jpeg = Some e ->
        response = HttpResponse_text "Error processing image" 500
        /\ blobs w' = <[("originalimages", name) := content file]> (blobs w)
        /\ blobs w' !! ("originalimages", name) = Some (content file)
        /\ blobs w' !! ("thumbnails", thumbnail_blob_name_of name)
           = blobs w !! ("thumbnails", thumbnail_blob_name_of name)
        /\ calls w' =
             (calls w ++
              [CallOpen (content file) true; CallThumbnail (128, 128) true;
               CallSave "JPEG" true; CallUuid4 (uuid4 (draws w));
               CallEnviron "AzureWebJobsStorage" true;
               CallConnect conn_str true;
               CallUpload "originalimages" name (content file) true;
               CallUpload "thumbnails" (thumbnail_blob_name_of name) jpeg
                 false])%list).
Proof.
  intros Hfiles Hget Hbool Hopen response w' name.
  subst response w' name. split.
  - intros Hfail. run_service.
    rewrite Hfiles, Hget, Hbool; simpl_run. rewrite Hopen; simpl_run.
    destruct Hfail; simpl_run; use_results; reflexivity.
  - intros thumb jpeg conn_str client e Hthumb Hsave Henv Hconn Hup1 Hup2.
    run_service.
    rewrite Hfiles, Hget, Hbool; simpl_run. rewrite Hopen; simpl_run.
    use_results. norm_calls.
    split; [reflexivity|]. split; [reflexivity|].
    split; [apply lookup_insert_eq|]. split; [|reflexivity].
    apply lookup_insert_ne. intros Heq; discriminate Heq.
Qed.

(** What is uploaded as a thumbnail.  Whatever the request and whatever
    the format of the uploaded image, the data of an upload to
    [thumbnails] is what the encoder returned when asked for JPEG on the
    thumbnail of the decoded image, and that encoding precedes the upload;
    so a thumbnail object that the run changed in the store holds such an
    encoding. *)
Theorem stored_thumbnail_is_jpeg_encoding (req : HttpRequest) (w : World) :
  let w' := snd (generateThumbnail req w) in
  exists cs,
    calls w' = (calls w ++ cs)%list
    /\ (forall i blob data ok,
          cs !! i = Some (CallUpload "thumbnails" blob data ok) ->
          (exists j, (j < i)%nat /\ cs !! j = Some (CallSave "JPEG" true))
          /\ exists d file image thumb,
               files req = inr d
               /\ MultiDict_get d "file" = Some file
               /\ Image_open (content file) = inr image
               /\ thumbnail image (128, 128) = inr thumb
               /\ Image_save thumb "JPEG" = inr data)
    /\ (forall blob data,
          blobs w' !! ("thumbnails", blob) = Some data ->
          blobs w !! ("thumbnails", blob) = Some data
          \/ exists image thumb,
               thumbnail image (128, 128) = inr thumb
               /\ Image_save thumb "JPEG" = inr data).
Proof.
  run_service.
  repeat step; norm_calls;
    try (exists []; rewrite app_nil_r; split; [reflexivity|]; split;
         [intros ? ? ? ? Hi; rewrite lookup_nil in Hi; discriminate Hi
         | intros; left; assumption]);
    (eexists; split; [reflexivity|]; split;
     [ intros idx blob data ok Hi; locate_call Hi
     | intros blob data Hlook ]).
  all: try (left; exact Hlook).
  all: try (left; rewrite lookup_insert_ne in Hlook
              by (intros Heq; discriminate Heq); exact Hlook).
  - injection Hi as <- <- <-. split.
    + exists 2%nat. split; [lia | reflexivity].
    + repeat eexists; eassumption.
  - injection Hi as <- <- <-. split.
    + exists 2%nat. split; [lia | reflexivity].
    + repeat eexists; eassumption.
  - destruct (decide (blob = thumbnail_blob_name_of
                               (original_blob_name_of (uuid4 (draws w)) f)))
      as [->|Hne].
    + rewrite lookup_insert_eq in Hlook. injection Hlook as <-.
      right. eauto.
    + left. rewrite lookup_insert_ne in Hlook by congruence.
      rewrite lookup_insert_ne in Hlook by (intros Heq; discriminate Heq).
      exact Hlook.
Qed.

(** C6, where the code departs from it.  The thumbnail goes to the
    encoder in the mode the image was opened in: nothing converts it.  When
    the encoder raises for it, the run ends at the failed encoding with
    500 [Error processing image]; no token is drawn, nothing is uploaded
    and the store is unchanged, so no thumbnail of that image is stored. *)
Theorem unencodable_thumbnail_is_not_stored
    (req : HttpRequest) (d : list (string * FileStorage)) (file : FileStorage)
    (w : World) (image thumb : Image) (e : Exception) :
  files req = inr d ->
  MultiDict_get d "file" = Some file ->
  FileStorage_bool file = true ->
  Image_open (content file) = inr image ->
  thumbnail image (128, 128) = inr thumb ->
  Image_save thumb "JPEG" = inl e ->
  mode thumb = mode image
  /\ fst (generateThumbnail req w) = HttpResponse_text "Error processing image" 500
  /\ calls (snd (generateThumbnail req w))
     = (calls w ++
        [CallOpen (content file) true; CallThumbnail (128, 128) true;
         CallSave "JPEG" false])%list
  /\ blobs (snd (generateThumbnail req w)) = blobs w
  /\ draws (snd (generateThumbnail req w)) = draws w.
Proof.
  intros Hfiles Hget Hbool Hopen Hthumb Hsave. split.
  - unfold Image_thumbnail in Hthumb.
    destruct (preserve_aspect_ratio (128, 128) (size image)) as [sz|].
    + destruct (Image_resize image sz); simplify_eq. reflexivity.
    + simplify_eq. reflexivity.
  - run_service.
    rewrite Hfiles, Hget, Hbool; simpl_run.
    rewrite Hopen, Hthumb, Hsave; simpl_run. norm_calls.
    repeat split.
Qed.

(** C9. In every run, an upload to [thumbnails], whether it succeeds or
    not, comes after a successful upload to [originalimages] of the
    paired name, and that original is in the store when the run ends.  The
    converse fails: in the concrete world whose store refuses writes to
    [thumbnails], a run ends with the original as the only object. *)
Theorem thumbnail_upload_only_after_original (req : HttpRequest) (w : World) :
  let w' := snd (generateThumbnail req w) in
  (exists cs,
     calls w' = (calls w ++ cs)%list
     /\ forall i blob data ok,
          cs !! i = Some (CallUpload "thumbnails" blob data ok) ->
          exists j name original_data,
            (j < i)%nat
            /\ cs !! j = Some (CallUpload "originalimages" name original_data true)
            /\ blob = thumbnail_blob_name_of name
            /\ blobs w' !! ("originalimages", name) = Some original_data)
  /\ (let demo :=
        Demo.run Demo.environ Demo.thumbnails_down
          (Demo.request_of Demo.jpeg_1000x500) Demo.empty_world in
      status_code (fst demo) = 500
      /\ map_to_list (blobs (snd demo)) =
           [(("originalimages",
              original_blob_name_of (Demo.uuid4 0) Demo.jpeg_1000x500),
             content Demo.jpeg_1000x500)]).
Proof.
  split; [|split; vm_compute; reflexivity].
  run_service.
  repeat step; norm_calls;
    try (exists []; rewrite app_nil_r; split; [reflexivity|];
         intros ? ? ? ? Hi; rewrite lookup_nil in Hi; discriminate Hi);
    (eexists; split; [reflexivity|];
     intros idx blob data ok Hi; locate_call Hi).
  - injection Hi as <- <- <-.
    exists 6%nat. eexists _, _. split; [lia|]. split; [reflexivity|].
    split; [reflexivity|]. apply lookup_insert_eq.
  - injection Hi as <- <- <-.
    exists 6%nat. eexists _, _. split; [lia|]. split; [reflexivity|].
    split; [reflexivity|].
    rewrite lookup_insert_ne by (intros Heq; discriminate Heq).
    apply lookup_insert_eq.
Qed.

(** C10. In every run, [os.environ] is read for [AzureWebJobsStorage]
    only, and only after the image was decoded and the thumbnail encoded.
    When the read or the construction of the client fails, the answer is
    500 [Error processing image], no upload is attempted and the store is
    unchanged; and for a file that passed the check, an unset variable or
    a connection string no client can be built from always ends that
    way. *)
Theorem connection_string_read_after_encoding (req : HttpRequest) (w : World) :
  let response := fst (generateThumbnail req w) in
  let w' := snd (generateThumbnail req w) in
  exists cs,
    calls w' = (calls w ++ cs)%list
    /\ (forall i key ok,
          cs !! i = Some (CallEnviron key ok) ->
          key = "AzureWebJobsStorage"
          /\ exists j1 j2 data,
               (j1 < j2 < i)%nat
               /\ cs !! j1 = Some (CallOpen data true)
               /\ cs !! j2 = Some (CallSave "JPEG" true))
    /\ (forall i key conn_str,
          cs !! i = Some (CallEnviron key false)
          \/ cs !! i = Some (CallConnect conn_str false) ->
          response = HttpResponse_text "Error processing image" 500
          /\ blobs w' = blobs w
          /\ forall j container blob data ok,
               cs !! j <> Some (CallUpload container blob data ok))
    /\ (forall d file,
          files req = inr d ->
          MultiDict_get d "file" = Some file ->
          FileStorage_bool file = true ->
          environ !! "AzureWebJobsStorage" = None
          \/ (exists conn_str e,
                environ !! "AzureWebJobsStorage" = Some conn_str
                /\ from_connection_string conn_str = inl e) ->
          response = HttpResponse_text "Error processing image" 500
          /\ blobs w' = blobs w
          /\ forall j container blob data ok,
               cs !! j <> Some (CallUpload container blob data ok)).
Proof.
  run_service.
  repeat step; norm_calls;
    try (exists []; rewrite app_nil_r; split; [reflexivity|]; split;
         [intros ? ? ? Hi; rewrite lookup_nil in Hi; discriminate Hi|]; split;
         [intros ? ? ? [Hi|Hi]; rewrite lookup_nil in Hi; discriminate Hi|];
         intros d' file' Hd Hg Hb; simplify_eq; try discriminate Hb;
         rewrite Hb in *; discriminate);
    (eexists; split; [reflexivity|]; split; [|split]).
  all: try (intros idx key ok Hi; locate_call Hi;
            (injection Hi as <- <-; split; [reflexivity|];
             exists 0%nat, 2%nat; eexists;
             split; [lia|]; split; reflexivity)).
  all: try (intros idx key conn_str [Hi|Hi]; locate_call Hi;
            (split; [reflexivity|]; split; [reflexivity|];
             intros j ? ? ? ? Hj; locate_call Hj)).
  all: intros d' file' Hd Hg Hb Hconf;
    try (destruct Hconf as [Hconf|(c' & e' & Hc1 & Hc2)];
         [discriminate Hconf | injection Hc1 as <-; congruence]);
    (split; [reflexivity|]; split; [reflexivity|];
     intros j ? ? ? ? Hj; locate_call Hj).
Qed.

End Properties.

(** * The properties on concrete requests *)

Example thumbnail_dims_1000x500 : thumbnail_dims (128, 128) (1000, 500) = (128, 64).
Proof. vm_compute. reflexivity. Qed.

Example thumbnail_dims_small : thumbnail_dims (128, 128) (100, 60) = (100, 60).
Proof. vm_compute. reflexivity. Qed.

Example thumbnail_dims_sliver : thumbnail_dims (128, 128) (10000, 1) = (128, 1).
Proof. vm_compute. reflexivity. Qed.

Example UUID_str_demo :
  UUID_str (Demo.uuid4 0) = "9f1c2d3e-4a5b-4c6d-8e7f-001122334455".
Proof. vm_compute. reflexivity. Qed.

(** A PNG upload is stored as the encoder's JPEG output. *)
Example png_upload_stored_as_jpeg :
  let w' :=
    snd (Demo.run Demo.environ Demo.no_fault
           (Demo.request_of Demo.png_300x400) Demo.empty_world) in
  blobs w' !! ("thumbnails",
               thumbnail_blob_name_of
                 (original_blob_name_of (Demo.uuid4 0) Demo.png_300x400))
  = Some [Byte.xff; Byte.x00; Byte.x60; Byte.x00; Byte.x80; Byte.x11].
Proof. vm_compute. reflexivity. Qed.

(** C1 on the 1000 by 500 JPEG. *)
Lemma success_two_writes_and_urls_witness :
  let name := original_blob_name_of (Demo.uuid4 0) Demo.jpeg_1000x500 in
  let original_blob_client :=
    get_blob_client Demo.client "originalimages" name in
  let thumbnail_blob_client :=
    get_blob_client Demo.client "thumbnails" (thumbnail_blob_name_of name) in
  let '(response, w') :=
    Demo.run Demo.environ Demo.no_fault
      (Demo.request_of Demo.jpeg_1000x500) Demo.empty_world in
  response =
    mkHttpResponse
      (Demo.json_dumps
         [("original_url", Demo.BlobClient_url original_blob_client);
          ("thumbnail_url", Demo.BlobClient_url thumbnail_blob_client)])
      200 "application/json"
  /\ calls w' =
       ([] ++
        [CallOpen (content Demo.jpeg_1000x500) true; CallThumbnail (128, 128) true;
         CallSave "JPEG" true; CallUuid4 (Demo.uuid4 0);
         CallEnviron "AzureWebJobsStorage" true;
         CallConnect "UseDevelopmentStorage=true" true;
         CallUpload "originalimages" name (content Demo.jpeg_1000x500) true;
         CallUpload "thumbnails" (thumbnail_blob_name_of name) Demo.jpeg_128x64
           true])%list
  /\ blobs w' =
       <[("thumbnails", thumbnail_blob_name_of name) := Demo.jpeg_128x64]>
         (<[("originalimages", name) := content Demo.jpeg_1000x500]> ∅).
Proof.
  exact (success_two_writes_and_urls
           Demo.Image_open Demo.Image_resize Demo.Image_save Demo.uuid4
           Demo.environ Demo.from_connection_string Demo.no_fault
           Demo.BlobClient_url Demo.json_dumps
           (Demo.request_of Demo.jpeg_1000x500)
           [("file", Demo.jpeg_1000x500)] Demo.jpeg_1000x500 Demo.empty_world
           Demo.image_1000x500 Demo.thumb_128x64 Demo.jpeg_128x64
           "UseDevelopmentStorage=true" Demo.client
           eq_refl eq_refl eq_refl eq_refl eq_refl eq_refl eq_refl eq_refl
           eq_refl eq_refl).
Defined.

(** C2 on the 1000 by 500 JPEG: the stored thumbnail is 128 by 64. *)
Lemma thumbnail_fits_box_keeps_aspect_witness :
  exists thumb jpeg,
    Image_thumbnail Demo.Image_resize Demo.image_1000x500 (128, 128) = inr thumb
    /\ Demo.Image_save thumb "JPEG" = inr jpeg
    /\ blobs (snd (Demo.run Demo.environ Demo.no_fault
                     (Demo.request_of Demo.jpeg_1000x500) Demo.empty_world))
         !! ("thumbnails",
             thumbnail_blob_name_of
               (original_blob_name_of (Demo.uuid4 0) Demo.jpeg_1000x500))
       = Some jpeg
    /\ let '(tw, th) := size thumb in
       let scale_den := Z.max 128 (Z.max 1000 500) in
       1 <= tw <= 128 /\ 1 <= th <= 128
       /\ Z.abs (tw * scale_den - 128 * 1000) < scale_den
       /\ Z.abs (th * scale_den - 128 * 500) < scale_den
       /\ (1000 <= 128 -> 500 <= 128 -> (tw, th) = (1000, 500))
       /\ (128 < 1000 \/ 128 < 500 -> Z.max tw th = 128).
Proof.
  apply (thumbnail_fits_box_keeps_aspect
           Demo.Image_open Demo.Image_resize Demo.Image_save Demo.uuid4
           Demo.environ Demo.from_connection_string Demo.no_fault
           Demo.BlobClient_url Demo.json_dumps
           (Demo.request_of Demo.jpeg_1000x500)
           [("file", Demo.jpeg_1000x500)] Demo.jpeg_1000x500 Demo.empty_world
           Demo.image_1000x500 1000 500).
  - reflexivity.
  - reflexivity.
  - reflexivity.
  - reflexivity.
  - lia.
  - lia.
  - vm_compute. reflexivity.
Defined.

(** C3 on the same file uploaded twice. *)
Lemma distinct_tokens_distinct_objects_witness :
  let run1 :=
    Demo.run Demo.environ Demo.no_fault
      (Demo.request_of Demo.jpeg_1000x500) Demo.empty_world in
  let run2 :=
    Demo.run Demo.environ Demo.no_fault
      (Demo.request_of Demo.jpeg_1000x500) (snd run1) in
  let u1 := Demo.uuid4 (draws Demo.empty_world) in
  let u2 := Demo.uuid4 (draws (snd run1)) in
  exists d1 d2 file1 file2 jpeg1 jpeg2,
    let n1 := UUID_str u1 +:+ "_" +:+ filename file1 in
    let n2 := UUID_str u2 +:+ "_" +:+ filename file2 in
    let t1 := "thumb_" +:+ n1 in
    let t2 := "thumb_" +:+ n2 in
    (files (Demo.request_of Demo.jpeg_1000x500) = inr d1
     /\ MultiDict_get d1 "file" = Some file1)
    /\ (files (Demo.request_of Demo.jpeg_1000x500) = inr d2
        /\ MultiDict_get d2 "file" = Some file2)
    /\ blobs (snd run1) =
         <[("thumbnails", t1) := jpeg1]>
           (<[("originalimages", n1) := content file1]> (blobs Demo.empty_world))
    /\ blobs (snd run2) =
         <[("thumbnails", t2) := jpeg2]>
           (<[("originalimages", n2) := content file2]> (blobs (snd run1)))
    /\ NoDup [n1; t1; n2; t2]
    /\ blobs (snd run2) !! ("originalimages", n1) = Some (content file1)
    /\ blobs (snd run2) !! ("thumbnails", t1) = Some jpeg1.
Proof.
  apply (distinct_tokens_distinct_objects
           Demo.Image_open Demo.Image_resize Demo.Image_save Demo.uuid4
           Demo.environ Demo.from_connection_string Demo.no_fault
           Demo.BlobClient_url Demo.json_dumps
           (Demo.request_of Demo.jpeg_1000x500)
           (Demo.request_of Demo.jpeg_1000x500) Demo.empty_world).
  - vm_compute. reflexivity.
  - vm_compute. reflexivity.
  - vm_compute. reflexivity.
  - vm_compute. reflexivity.
  - vm_compute. discriminate.
Defined.

(** C4 as stated fails: a file part with a filename and no content is not
    answered 400; it is handed to the decoder, and the answer is 500. *)
Lemma empty_content_is_not_400 :
  let run :=
    Demo.run Demo.environ Demo.no_fault
      (Demo.request_of Demo.named_but_empty) Demo.empty_world in
  content Demo.named_but_empty = []
  /\ status_code (fst run) = 500
  /\ status_code (fst run) <> 400
  /\ calls (snd run) = [CallOpen [] false].
Proof.
  vm_compute. repeat split. discriminate.
Qed.

(** C4 as the code has it, on a request with no file part. *)
Lemma missing_file_is_400_witness :
  let req := mkHttpRequest (inr []) in
  let run := Demo.run Demo.environ Demo.no_fault req Demo.empty_world in
  (truthy (MultiDict_get [] "file") = false ->
     fst run = HttpResponse_text "No file uploaded" 400
     /\ calls (snd run) = calls Demo.empty_world
     /\ blobs (snd run) = blobs Demo.empty_world)
  /\ (truthy (MultiDict_get [] "file") = true ->
      exists file ok rest,
        MultiDict_get [] "file" = Some file
        /\ calls (snd run)
           = (calls Demo.empty_world ++ CallOpen (content file) ok :: rest)%list
        /\ status_code (fst run) <> 400).
Proof.
  apply (missing_file_is_400
           Demo.Image_open Demo.Image_resize Demo.Image_save Demo.uuid4
           Demo.environ Demo.from_connection_string Demo.no_fault
           Demo.BlobClient_url Demo.json_dumps
           (mkHttpRequest (inr [])) [] Demo.empty_world).
  reflexivity.
Defined.

(** A part with content but an empty filename is answered 400 as well. *)
Example unnamed_part_is_400 :
  fst (Demo.run Demo.environ Demo.no_fault
         (Demo.request_of Demo.unnamed) Demo.empty_world)
  = HttpResponse_text "No file uploaded" 400.
Proof. vm_compute. reflexivity. Qed.

(** C5 on a file that is no image. *)
Lemma decode_failure_is_500_without_writes_witness :
  let run :=
    Demo.run Demo.environ Demo.no_fault
      (Demo.request_of Demo.garbage) Demo.empty_world in
  fst run = HttpResponse_text "Error processing image" 500
  /\ calls (snd run)
     = (calls Demo.empty_world ++ [CallOpen (content Demo.garbage) false])%list
  /\ blobs (snd run) = blobs Demo.empty_world.
Proof.
  apply (decode_failure_is_500_without_writes
           Demo.Image_open Demo.Image_resize Demo.Image_save Demo.uuid4
           Demo.environ Demo.from_connection_string Demo.no_fault
           Demo.BlobClient_url Demo.json_dumps
           (Demo.request_of Demo.garbage) [("file", Demo.garbage)] Demo.garbage
           Demo.empty_world
           (mkException "UnidentifiedImageError" "cannot identify image file")).
  - reflexivity.
  - reflexivity.
  - reflexivity.
  - reflexivity.
Defined.

Lemma garbage_is_decode_failure :
  Demo.kind Demo.environ Demo.store_down
    (Demo.request_of Demo.garbage) Demo.empty_world DecodeFailure.
Proof.
  unfold Demo.kind. eapply KindDecodeFailure; reflexivity.
Defined.

Lemma store_down_is_processing_failure :
  Demo.kind Demo.environ Demo.store_down
    (Demo.request_of Demo.jpeg_1000x500) Demo.empty_world ProcessingFailure.
Proof.
  unfold Demo.kind.
  eapply KindProcessingFailure; [reflexivity | reflexivity | reflexivity
                                | reflexivity |].
  eapply FailUploadOriginal; reflexivity.
Defined.

(** C7 as stated fails: with a store that is down, a file that is no image
    gives a decoding failure and a good image gives a processing failure;
    the kinds differ and the status codes are the same. *)
Lemma decode_and_processing_failures_share_status :
  let run := Demo.run Demo.environ Demo.store_down in
  let kind := Demo.kind Demo.environ Demo.store_down in
  kind (Demo.request_of Demo.garbage) Demo.empty_world DecodeFailure
  /\ kind (Demo.request_of Demo.jpeg_1000x500) Demo.empty_world ProcessingFailure
  /\ DecodeFailure <> ProcessingFailure
  /\ status_code (fst (run (Demo.request_of Demo.garbage) Demo.empty_world))
     = status_code
         (fst (run (Demo.request_of Demo.jpeg_1000x500) Demo.empty_world)).
Proof.
  cbv zeta. split; [exact garbage_is_decode_failure|].
  split; [exact store_down_is_processing_failure|].
  split; [discriminate|]. vm_compute. reflexivity.
Qed.

(** C7 as the code has it, on the processing failure above. *)
Lemma error_kind_response_witness :
  let response :=
    fst (Demo.run Demo.environ Demo.store_down
           (Demo.request_of Demo.jpeg_1000x500) Demo.empty_world) in
  response = HttpResponse_text "Error processing image" 500
  \/ (exists e, files (Demo.request_of Demo.jpeg_1000x500) = inl e)
     /\ response = HttpResponse_text "Error processing request" 500.
Proof.
  exact (error_kind_response
           Demo.Image_open Demo.Image_resize Demo.Image_save Demo.uuid4
           Demo.environ Demo.from_connection_string Demo.store_down
           Demo.BlobClient_url Demo.json_dumps
           (Demo.request_of Demo.jpeg_1000x500) Demo.empty_world
           ProcessingFailure store_down_is_processing_failure).
Defined.

(** C8 on the 1000 by 500 JPEG with the thumbnails container down. *)
Lemma processing_failure_is_500_no_rollback_witness :
  let run :=
    Demo.run Demo.environ Demo.thumbnails_down
      (Demo.request_of Demo.jpeg_1000x500) Demo.empty_world in
  let name := original_blob_name_of (Demo.uuid4 0) Demo.jpeg_1000x500 in
  fst run = HttpResponse_text "Error processing image" 500
  /\ blobs (snd run) !! ("originalimages", name)
     = Some (content Demo.jpeg_1000x500)
  /\ blobs (snd run) !! ("thumbnails", thumbnail_blob_name_of name) = None.
Proof.
  destruct (processing_failure_is_500_no_rollback
              Demo.Image_open Demo.Image_resize Demo.Image_save Demo.uuid4
              Demo.environ Demo.from_connection_string Demo.thumbnails_down
              Demo.BlobClient_url Demo.json_dumps
              (Demo.request_of Demo.jpeg_1000x500)
              [("file", Demo.jpeg_1000x500)] Demo.jpeg_1000x500
              Demo.empty_world Demo.image_1000x500
              eq_refl eq_refl eq_refl eq_refl) as [_ Hpartial].
  destruct (Hpartial Demo.thumb_128x64 Demo.jpeg_128x64
              "UseDevelopmentStorage=true" Demo.client
              (mkException "HttpResponseError"
                 "Server failed to authenticate the request.")
              eq_refl eq_refl eq_refl eq_refl eq_refl eq_refl)
    as (Hresp & _ & Horig & Hthumb & _).
  cbv zeta. split; [exact Hresp|]. split; [exact Horig|].
  exact (eq_trans Hthumb eq_refl).
Defined.

(** C1 as stated fails: a valid image sent under an empty filename is
    answered 400, nothing is decoded and nothing is written. *)
Lemma valid_image_without_filename_is_400 :
  let run :=
    Demo.run Demo.environ Demo.no_fault
      (Demo.request_of Demo.unnamed) Demo.empty_world in
  Demo.Image_open (content Demo.unnamed)
  = inr (mkImage "JPEG" "RGB" (100, 60) [])
  /\ status_code (fst run) = 400
  /\ status_code (fst run) <> 200
  /\ calls (snd run) = []
  /\ map_to_list (blobs (snd run)) = [].
Proof.
  vm_compute. repeat split. discriminate.
Qed.

(** C6 on a PNG with an alpha channel: the image decodes, fits the box, and
    the JPEG encoder refuses its mode. *)
Lemma unencodable_thumbnail_is_not_stored_witness :
  let run := DemoPng.run (Demo.request_of DemoPng.rgba_png) Demo.empty_world in
  mode DemoPng.rgba_image = "RGBA"
  /\ fst run = HttpResponse_text "Error processing image" 500
  /\ calls (snd run)
     = [CallOpen (content DemoPng.rgba_png) true; CallThumbnail (128, 128) true;
        CallSave "JPEG" false]
  /\ blobs (snd run) = blobs Demo.empty_world
  /\ draws (snd run) = draws Demo.empty_world.
Proof.
  cbv zeta. split; [reflexivity|].
  exact (proj2
           (unencodable_thumbnail_is_not_stored
              DemoPng.Image_open Demo.Image_resize DemoPng.Image_save Demo.uuid4
              Demo.environ Demo.from_connection_string Demo.no_fault
              Demo.BlobClient_url Demo.json_dumps
              (Demo.request_of DemoPng.rgba_png) [("file", DemoPng.rgba_png)]
              DemoPng.rgba_png Demo.empty_world DemoPng.rgba_image
              DemoPng.rgba_image
              (mkException "OSError" "cannot write mode RGBA as JPEG")
              eq_refl eq_refl eq_refl eq_refl eq_refl eq_refl)).
Defined.

(** The same pixels without the alpha channel are stored as a JPEG. *)
Example rgb_png_thumbnail_is_stored :
  let rgb_png :=
    mkFileStorage "logo.png"
      [Byte.x89; Byte.x02; Byte.x00; Byte.x02; Byte.x00; Byte.x02; Byte.x7f]
      "image/png" in
  let run := DemoPng.run (Demo.request_of rgb_png) Demo.empty_world in
  status_code (fst run) = 200
  /\ blobs (snd run)
       !! ("thumbnails",
           thumbnail_blob_name_of (original_blob_name_of (Demo.uuid4 0) rgb_png))
     = Some [Byte.xff; Byte.x00; Byte.x02; Byte.x00; Byte.x02; Byte.x7f].
Proof. vm_compute. split; reflexivity. Qed.

(** * More about the service *)

(** [get] on a multi-dict skips the parts under other names. *)
Lemma MultiDict_get_first
    (pre post : list (string * FileStorage)) (key : string) (f : FileStorage) :
  forallb (fun part => negb (String.eqb (fst part) key)) pre = true ->
  MultiDict_get (pre ++ (key, f) :: post) key = Some f.
Proof.
  induction pre as [|[k v] pre IH]; cbn [app MultiDict_get forallb fst].
  - intros _. rewrite String.eqb_refl. reflexivity.
  - intros Hpre. apply andb_true_iff in Hpre as [Hk Hpre].
    apply negb_true_iff in Hk. rewrite Hk. exact (IH Hpre).
Qed.

Section ServiceAtLarge.

Variable Image_open : bytes -> Exception + Image.
Variable Image_resize : Image -> Z * Z -> Exception + bytes.
Variable Image_save : Image -> string -> Exception + bytes.
Variable uuid4 : nat -> N.
Variable environ : gmap string string.
Variable from_connection_string : string -> Exception + BlobServiceClient.
Variable upload_fault : BlobClient -> bytes -> option Exception.
Variable BlobClient_url : BlobClient -> string.
Variable json_dumps : list (string * string) -> string.

Local Abbreviation generateThumbnail :=
  (main Image_open Image_resize Image_save uuid4 environ
     from_connection_string upload_fault BlobClient_url json_dumps).
Local Abbreviation thumbnail := (Image_thumbnail Image_resize).

(** X1. When reading the request's files raises, the answer is 500
    [Error processing request]; no collaborator is called, the store is
    unchanged, and the log gains the start line and one error line that
    carries the exception's text. *)
Theorem unreadable_request_is_500
    (req : HttpRequest) (w : World) (e : Exception) :
  files req = inl e ->
  fst (generateThumbnail req w) = HttpResponse_text "Error processing request" 500
  /\ calls (snd (generateThumbnail req w)) = calls w
  /\ blobs (snd (generateThumbnail req w)) = blobs w
  /\ draws (snd (generateThumbnail req w)) = draws w
  /\ logs (snd (generateThumbnail req w)) =
       (logs w ++
        [(INFO, "Processing an image upload to generate a thumbnail.");
         (ERROR, "Error reading file: " +:+ exc_str e)])%list.
Proof.
  intros Hfiles. run_service. rewrite Hfiles; simpl_run.
  repeat split. rewrite <- app_assoc. reflexivity.
Qed.

(** X2. Every run logs the start line first.  An answer other than 500
    logs nothing more; an answer of 500 logs exactly one error line, which
    holds the text of the exception that reading the files or the
    processing of the file raised, while the response body is one of two
    fixed strings: the exception's text reaches the log and never the
    caller. *)
Theorem failures_are_logged_not_returned (req : HttpRequest) (w : World) :
  let response := fst (generateThumbnail req w) in
  let w' := snd (generateThumbnail req w) in
  exists errors,
    logs w' =
      (logs w ++
       (INFO, "Processing an image upload to generate a thumbnail.") :: errors)%list
    /\ ((status_code response <> 500 /\ errors = [])
        \/ (exists e,
              files req = inl e
              /\ errors = [(ERROR, "Error reading file: " +:+ exc_str e)]
              /\ response = HttpResponse_text "Error processing request" 500)
        \/ (exists d file e,
              files req = inr d
              /\ MultiDict_get d "file" = Some file
              /\ fst (process Image_open Image_resize Image_save uuid4 environ
                        from_connection_string upload_fault BlobClient_url
                        json_dumps file
                        (snd (logging INFO
                                "Processing an image upload to generate a thumbnail."
                                w)))
                 = inl e
              /\ errors = [(ERROR, "Error processing image: " +:+ exc_str e)]
              /\ response = HttpResponse_text "Error processing image" 500)).
Proof.
  run_service.
  repeat step; rewrite <- ?app_assoc; cbn [app];
    eexists; (split; [reflexivity|]).
  all: first [ left; split; [discriminate | reflexivity]
             | right; left; eexists; repeat split; reflexivity
             | right; right; eexists _, _, _;
               split; [reflexivity|]; split; [eassumption|];
               split; [|split; reflexivity];
               repeat match goal with
                      | H : ?l = _ |- context [?l] => rewrite H; simpl_run
                      end; reflexivity ].
Qed.

(** X3. The response does not depend on what the store, the call trace
    or the log held before the run: two runs of the same request that draw
    the same token answer alike.  (Both uploads overwrite, so an existing
    object never changes the outcome.) *)
Theorem response_independent_of_store
    (req : HttpRequest) (w1 w2 : World) :
  draws w1 = draws w2 ->
  fst (generateThumbnail req w1) = fst (generateThumbnail req w2)
  /\ draws (snd (generateThumbnail req w1)) = draws (snd (generateThumbnail req w2)).
Proof.
  intros Hdraws. run_service. rewrite Hdraws.
  repeat step; split; reflexivity.
Qed.

(** X4. A run changes the store at most under the two names it builds
    from its token and the filename, and it removes nothing: every object
    that was in the store is still there, with the same bytes unless it
    sat under one of those two names. *)
Theorem store_changes_only_at_own_names (req : HttpRequest) (w : World) :
  let w' := snd (generateThumbnail req w) in
  (forall container blob,
     blobs w' !! (container, blob) <> blobs w !! (container, blob) ->
     exists d file,
       files req = inr d
       /\ MultiDict_get d "file" = Some file
       /\ is_Some (blobs w' !! (container, blob))
       /\ let name := original_blob_name_of (uuid4 (draws w)) file in
          (container = "originalimages" /\ blob = name)
          \/ (container = "thumbnails" /\ blob = thumbnail_blob_name_of name))
  /\ (forall key, is_Some (blobs w !! key) -> is_Some (blobs w' !! key)).
Proof.
  run_service.
  repeat step; (split; [intros container blob Hdiff | intros key Hkey]);
    try (exfalso; apply Hdiff; reflexivity); try exact Hkey.
  - exists l, f. split; [reflexivity|]. split; [exact Heqo|].
    destruct (decide ((container, blob) =
                      ("originalimages", original_blob_name_of (uuid4 (draws w)) f)))
      as [Heq|Hne].
    + injection Heq as -> ->. rewrite lookup_insert_eq.
      split; [eexists; reflexivity | left; split; reflexivity].
    + exfalso. apply Hdiff. rewrite lookup_insert_ne by congruence. reflexivity.
  - rewrite lookup_insert. case_decide; [eexists; reflexivity | exact Hkey].
  - exists l, f. split; [reflexivity|]. split; [exact Heqo|].
    destruct (decide ((container, blob) =
                      ("thumbnails",
                       thumbnail_blob_name_of
                         (original_blob_name_of (uuid4 (draws w)) f))))
      as [Heq|Hne].
    + injection Heq as -> ->. rewrite lookup_insert_eq.
      split; [eexists; reflexivity | right; split; reflexivity].
    + rewrite lookup_insert_ne in Hdiff by congruence.
      rewrite lookup_insert_ne by congruence.
      destruct (decide ((container, blob) =
                        ("originalimages",
                         original_blob_name_of (uuid4 (draws w)) f)))
        as [Heq|Hne'].
      * injection Heq as -> ->. rewrite lookup_insert_eq.
        split; [eexists; reflexivity | left; split; reflexivity].
      * exfalso. apply Hdiff. rewrite lookup_insert_ne by congruence.
        reflexivity.
  - rewrite !lookup_insert. repeat case_decide; try (eexists; reflexivity).
    exact Hkey.
Qed.

(** X5. Only the first part named [file] is looked at: parts under other
    names before it, and any part after it (a second [file] included),
    change nothing. *)
Theorem first_file_part_is_processed
    (pre post : list (string * FileStorage)) (f : FileStorage) (w : World) :
  forallb (fun part => negb (String.eqb (fst part) "file")) pre = true ->
  generateThumbnail (mkHttpRequest (inr (pre ++ ("file", f) :: post)%list)) w
  = generateThumbnail (mkHttpRequest (inr [("file", f)])) w.
Proof.
  intros Hpre. unfold main, get_file, try_except, mbind, M_bind, bind.
  cbn [files]. rewrite (MultiDict_get_first pre post "file" f Hpre).
  reflexivity.
Qed.

(** X6. Of the uploaded part only the filename and the bytes are used: the
    declared MIME type has no effect on the response, the store, the calls
    or the log. *)
Theorem content_type_is_ignored
    (d1 d2 : list (string * FileStorage)) (f1 f2 : FileStorage) (w : World) :
  MultiDict_get d1 "file" = Some f1 ->
  MultiDict_get d2 "file" = Some f2 ->
  filename f1 = filename f2 ->
  content f1 = content f2 ->
  generateThumbnail (mkHttpRequest (inr d1)) w
  = generateThumbnail (mkHttpRequest (inr d2)) w.
Proof.
  intros H1 H2 Hname Hcontent.
  destruct f1 as [n1 c1 t1], f2 as [n2 c2 t2].
  cbn [filename content] in Hname, Hcontent. subst n2 c2.
  run_service. cbn [files]. rewrite H1, H2.
  unfold FileStorage_bool, original_blob_name_of. cbn [filename content].
  destruct (String.eqb n1 ""); simpl_run; cbn [filename content]; reflexivity.
Qed.

(** X7. An answer of 200 means that both objects are in the store when the
    run ends: the uploaded bytes under the original's name and the JPEG
    encoding under the thumbnail's name, and the body is the JSON of the
    URLs of exactly those two blobs. *)
Theorem ok_response_means_both_stored (req : HttpRequest) (w : World) :
  let response := fst (generateThumbnail req w) in
  let w' := snd (generateThumbnail req w) in
  status_code response = 200 ->
  exists d file image thumb jpeg conn_str client,
    let name := original_blob_name_of (uuid4 (draws w)) file in
    files req = inr d
    /\ MultiDict_get d "file" = Some file
    /\ Image_open (content file) = inr image
    /\ thumbnail image (128, 128) = inr thumb
    /\ Image_save thumb "JPEG" = inr jpeg
    /\ environ !! "AzureWebJobsStorage" = Some conn_str
    /\ from_connection_string conn_str = inr client
    /\ blobs w' !! ("originalimages", name) = Some (content file)
    /\ blobs w' !! ("thumbnails", thumbnail_blob_name_of name) = Some jpeg
    /\ response =
         mkHttpResponse
           (json_dumps
              [("original_url",
                BlobClient_url (get_blob_client client "originalimages" name));
               ("thumbnail_url",
                BlobClient_url
                  (get_blob_client client "thumbnails"
                     (thumbnail_blob_name_of name)))])
           200 "application/json".
Proof.
  run_service.
  repeat step; try (intros H; discriminate H).
  intros _. eexists _, _, _, _, _, _, _. cbv zeta.
  repeat (split; [first [reflexivity | eassumption]|]).
  split; [|split; [apply lookup_insert_eq | reflexivity]].
  rewrite lookup_insert_ne by (intros Heq; discriminate Heq).
  apply lookup_insert_eq.
Qed.

(** X8. The answers the function can give: 200 with a JSON body, or one of
    three fixed plain-text answers, 400 [No file uploaded], 500
    [Error processing request], 500 [Error processing image]. *)
Theorem possible_responses (req : HttpRequest) (w : World) :
  let response := fst (generateThumbnail req w) in
  (status_code response = 200 /\ mimetype response = "application/json")
  \/ response = HttpResponse_text "No file uploaded" 400
  \/ response = HttpResponse_text "Error processing request" 500
  \/ response = HttpResponse_text "Error processing image" 500.
Proof.
  run_service.
  repeat step;
    first [ left; split; reflexivity
          | right; left; reflexivity
          | right; right; left; reflexivity
          | right; right; right; reflexivity ].
Qed.

End ServiceAtLarge.

(** * The front end *)

Ltac simpl_app :=
  cbn [fst snd App.status_code App.text App.content App.json App.name
       App.getvalue App.type] in *.

Ltac run_app :=
  unfold App.app, App.generate, App.draw, App.try_except, App.show, App.emit,
    App.lift, App.http, mbind, mret, App.Script_bind, App.Script_ret in *;
  simpl_app.

Ltac step_app :=
  match goal with
  | |- context [match ?x with _ => _ end] =>
      lazymatch x with
      | context [match _ with _ => _ end] => fail
      | _ => destruct x eqn:?
      end
  end; simpl_app.

Lemma tail_here {A} (s : list A) : s = ([] ++ s)%list.
Proof. reflexivity. Qed.

Lemma tail_later {A} (x : A) (l k s : list A) :
  l = (k ++ s)%list -> x :: l = ((x :: k) ++ s)%list.
Proof. intros ->. reflexivity. Qed.

(** Split an explicit list in front of a given tail. *)
Ltac split_tail := repeat first [ apply tail_here | apply tail_later ].

Section AppProperties.

Variable Image_open : bytes -> Exception + Image.
Variable st_image : Image -> option Z -> Exception + unit.
Variable requests_post : string -> App.Files -> Exception + App.Response.
Variable requests_get : string -> Exception + App.Response.
Variable py_str : App.JSON -> string.
Variable not_subscriptable : App.JSON -> Exception.

Local Abbreviation script :=
  (App.app Image_open st_image requests_post requests_get py_str
     not_subscriptable).
Local Abbreviation getitem := (App.getitem not_subscriptable).
Local Abbreviation format_value := (App.format_value py_str).

(** X9. The script posts at most once per run, and only when a file is
    uploaded, its preview was decoded and the button was clicked; the
    request goes to the configured URL and carries one part, named [file],
    with the uploaded name, bytes and MIME type. *)
Theorem post_needs_file_preview_and_click
    (uploaded_file : option App.UploadedFile) (clicked : bool)
    (t : list App.Event) :
  exists evs,
    snd (script uploaded_file clicked t) = (t ++ evs)%list
    /\ forall i url files ok,
         evs !! i = Some (App.Post url files ok) ->
         clicked = true
         /\ url = App.azure_function_url
         /\ (exists f image,
               uploaded_file = Some f
               /\ Image_open (App.getvalue f) = inr image
               /\ files = App.files_of f)
         /\ forall j url' files' ok',
              evs !! j = Some (App.Post url' files' ok') -> j = i.
Proof.
  run_app.
  repeat step_app; norm_calls;
    (eexists; split; [reflexivity|]);
    intros idx url files ok Hi; locate_call Hi.
  all: injection Hi as <- <- <-.
  all: split; [reflexivity|]; split; [reflexivity|]; split;
    [eexists _, _; split; [reflexivity|]; split; [eassumption|reflexivity]|].
  all: intros jdx ? ? ? Hj; locate_call Hj; reflexivity.
Qed.

(** X10. A file whose preview cannot be decoded stops the script: the
    decoding is outside the [try], so its exception leaves the script
    after the heading of the preview; no request is made and the sidebar
    is not drawn. *)
Theorem undecodable_preview_stops_the_script
    (f : App.UploadedFile) (clicked : bool) (t : list App.Event)
    (e : Exception) :
  Image_open (App.getvalue f) = inl e ->
  script (Some f) clicked t =
    (inl e,
     (t ++ App.page_top
        ++ [App.Show App.Page (App.Subheader "Original Image")])%list).
Proof.
  intros Hopen. run_app. rewrite Hopen. norm_calls. reflexivity.
Qed.

(** X11. When the preview is decoded and drawn, the script finishes
    without an exception whatever the requests, the JSON decoding, the
    decoding and the drawing of the thumbnail do; it starts with the three
    top elements and ends with the sidebar, and a spinner that was opened
    is closed again. *)
Theorem script_completes_when_preview_decodes
    (uploaded_file : option App.UploadedFile) (clicked : bool)
    (t : list App.Event) :
  (forall f, uploaded_file = Some f ->
             exists image,
               Image_open (App.getvalue f) = inr image
               /\ st_image image (Some 300) = inr tt) ->
  fst (script uploaded_file clicked t) = inr tt
  /\ exists evs,
       snd (script uploaded_file clicked t)
       = (t ++ App.page_top ++ evs ++ App.sidebar)%list
       /\ forall i s,
            evs !! i = Some (App.SpinnerOn s) ->
            exists j, (i < j)%nat /\ evs !! j = Some App.SpinnerOff
                      /\ evs !! S j = None.
Proof.
  run_app.
  repeat step_app; norm_calls; intros Hprev;
    try (destruct (Hprev _ eq_refl) as (im & Him & Hdraw); congruence);
    (split; [reflexivity|]); eexists;
    (split; [apply (f_equal (fun l => (t ++ l)%list)); unfold App.page_top, App.sidebar;
             cbn [app]; do 3 f_equal; split_tail |]);
    intros idx s Hi; locate_call Hi.
  all: match goal with
       | |- exists j, _ /\ ?l !! j = _ /\ _ => exists (Nat.pred (length l))
       end; cbn [length Nat.pred]; split; [lia | split; reflexivity].
Qed.

(** X12. A response whose status is not 200 is shown as
    [Error: ] followed by the response text; nothing is fetched, and the
    run ends normally. *)
Theorem service_error_is_shown
    (f : App.UploadedFile) (image : Image) (t : list App.Event)
    (response : App.Response) :
  Image_open (App.getvalue f) = inr image ->
  st_image image (Some 300) = inr tt ->
  requests_post App.azure_function_url (App.files_of f) = inr response ->
  App.status_code response <> 200 ->
  script (Some f) true t =
    (inr tt,
     (t ++ App.page_top
        ++ [App.Show App.Page (App.Subheader "Original Image");
            App.Show App.Page (App.Picture image (Some 300));
            App.Show App.Page (App.Button "Generate Thumbnail");
            App.SpinnerOn "Generating thumbnail...";
            App.Post App.azure_function_url (App.files_of f) true;
            App.Show App.Page (App.Error ("Error: " +:+ App.text response));
            App.SpinnerOff]
        ++ App.sidebar)%list).
Proof.
  intros Hopen Hdraw Hpost Hstatus. run_app. unfold App.files_of in Hpost.
  rewrite Hopen; simpl_app. rewrite Hdraw; simpl_app.
  rewrite Hpost; simpl_app.
  apply Z.eqb_neq in Hstatus. rewrite Hstatus. norm_calls. reflexivity.
Qed.

(** X13. Every exception raised inside the [try] (the POST itself, the
    JSON decoding, a missing key, the GET of the thumbnail, the decoding of
    the thumbnail) is shown as [Error connecting to Azure Function: ]
    followed by its text, and only status codes other than 200 are shown
    as [Error: ]; a run shows at most one error. *)
Theorem shown_errors_and_their_causes
    (uploaded_file : option App.UploadedFile) (clicked : bool)
    (t : list App.Event) :
  exists evs,
    snd (script uploaded_file clicked t) = (t ++ evs)%list
    /\ forall i s,
         evs !! i = Some (App.Show App.Page (App.Error s)) ->
         (exists f,
            uploaded_file = Some f
            /\ ((exists e,
                    fst (App.generate Image_open st_image requests_post
                           requests_get py_str not_subscriptable f []) = inl e
                    /\ s = "Error connecting to Azure Function: " +:+ exc_str e)
                \/ (exists response,
                       requests_post App.azure_function_url (App.files_of f)
                       = inr response
                       /\ App.status_code response <> 200
                       /\ s = "Error: " +:+ App.text response)))
         /\ forall j s',
              evs !! j = Some (App.Show App.Page (App.Error s')) -> j = i.
Proof.
  run_app. unfold App.files_of.
  repeat step_app; norm_calls;
    (eexists; split; [reflexivity|]);
    intros idx s Hi; locate_call Hi.
  all: injection Hi as <-.
  all: split; [|intros jdx ? Hj; locate_call Hj; reflexivity].
  all: eexists; split; [reflexivity|].
  all: first [ right; eexists; split; [eassumption|]; split; [|reflexivity];
               apply Z.eqb_neq; assumption
             | left; eexists; split; [|reflexivity];
               repeat match goal with
                      | H : ?l = _ |- context [?l] => rewrite H; simpl_app
                      end; reflexivity ].
Qed.

(** X14. The happy path: a 200 answer whose JSON is an object with string
    values under [original_url] and [thumbnail_url], a thumbnail that can
    be fetched from the second and decoded.  The script shows the success
    message, the fetched thumbnail in the first column, the two download
    links in the second, and both URLs in the expander; the only GET is to
    the thumbnail URL. *)
Theorem thumbnail_and_links_are_shown
    (f : App.UploadedFile) (image thumbnail_image : Image)
    (t : list App.Event) (response thumbnail_response : App.Response)
    (data : App.JSON) (original_url thumbnail_url : string) :
  Image_open (App.getvalue f) = inr image ->
  st_image image (Some 300) = inr tt ->
  requests_post App.azure_function_url (App.files_of f) = inr response ->
  App.status_code response = 200 ->
  App.json response = inr data ->
  getitem data "original_url" = inr (App.JString original_url) ->
  getitem data "thumbnail_url" = inr (App.JString thumbnail_url) ->
  requests_get thumbnail_url = inr thumbnail_response ->
  Image_open (App.content thumbnail_response) = inr thumbnail_image ->
  st_image thumbnail_image None = inr tt ->
  script (Some f) true t =
    (inr tt,
     (t ++ App.page_top
        ++ [App.Show App.Page (App.Subheader "Original Image");
            App.Show App.Page (App.Picture image (Some 300));
            App.Show App.Page (App.Button "Generate Thumbnail");
            App.SpinnerOn "Generating thumbnail...";
            App.Post App.azure_function_url (App.files_of f) true;
            App.Show App.Page (App.Success "Thumbnail generated successfully!");
            App.Show App.Page (App.Columns 2);
            App.Show (App.Column 1) (App.Subheader "Thumbnail");
            App.Get thumbnail_url true;
            App.Show (App.Column 1) (App.Picture thumbnail_image None);
            App.Show (App.Column 2) (App.Subheader "Download");
            App.Show (App.Column 2)
              (App.Markdown ("[Download Thumbnail](" +:+ thumbnail_url +:+ ")"));
            App.Show (App.Column 2)
              (App.Markdown ("[Download Original](" +:+ original_url +:+ ")"));
            App.Show App.Page (App.ExpanderBox "Image URLs");
            App.Show (App.Expander "Image URLs")
              (App.Text ("Original image URL: " +:+ original_url));
            App.Show (App.Expander "Image URLs")
              (App.Text ("Thumbnail URL: " +:+ thumbnail_url));
            App.SpinnerOff]
        ++ App.sidebar)%list).
Proof.
  intros Hopen Hdraw Hpost Hstatus Hjson Ho Ht Hget Hthumb Hdraw'.
  run_app. unfold App.files_of in Hpost.
  rewrite Hopen; simpl_app. rewrite Hdraw; simpl_app.
  rewrite Hpost; simpl_app.
  rewrite Hstatus, Z.eqb_refl, Hjson; simpl_app. rewrite Ho, Ht; simpl_app.
  cbn [App.format_value]. rewrite Hget; simpl_app. rewrite Hthumb; simpl_app.
  rewrite Hdraw'; simpl_app.
  norm_calls. reflexivity.
Qed.

(** X15. When the thumbnail cannot be fetched after a 200 answer, the
    success message is already on the page: the run shows the success
    message, then the error, and neither the thumbnail nor the download
    links. *)
Theorem success_then_error_when_fetch_fails
    (f : App.UploadedFile) (image : Image) (t : list App.Event)
    (response : App.Response) (data : App.JSON)
    (original_url thumbnail_url : App.JSON) (e : Exception) :
  Image_open (App.getvalue f) = inr image ->
  st_image image (Some 300) = inr tt ->
  requests_post App.azure_function_url (App.files_of f) = inr response ->
  App.status_code response = 200 ->
  App.json response = inr data ->
  getitem data "original_url" = inr original_url ->
  getitem data "thumbnail_url" = inr thumbnail_url ->
  requests_get (format_value thumbnail_url) = inl e ->
  script (Some f) true t =
    (inr tt,
     (t ++ App.page_top
        ++ [App.Show App.Page (App.Subheader "Original Image");
            App.Show App.Page (App.Picture image (Some 300));
            App.Show App.Page (App.Button "Generate Thumbnail");
            App.SpinnerOn "Generating thumbnail...";
            App.Post App.azure_function_url (App.files_of f) true;
            App.Show App.Page (App.Success "Thumbnail generated successfully!");
            App.Show App.Page (App.Columns 2);
            App.Show (App.Column 1) (App.Subheader "Thumbnail");
            App.Get (format_value thumbnail_url) false;
            App.Show App.Page
              (App.Error ("Error connecting to Azure Function: " +:+ exc_str e));
            App.SpinnerOff]
        ++ App.sidebar)%list).
Proof.
  intros Hopen Hdraw Hpost Hstatus Hjson Ho Ht Hget.
  run_app. unfold App.files_of in Hpost.
  rewrite Hopen; simpl_app. rewrite Hdraw; simpl_app.
  rewrite Hpost; simpl_app.
  rewrite Hstatus, Z.eqb_refl, Hjson; simpl_app. rewrite Ho, Ht; simpl_app.
  rewrite Hget; simpl_app. norm_calls. reflexivity.
Qed.

End AppProperties.

(** * End to end *)

Section EndToEnd.

Variable Image_open : bytes -> Exception + Image.
Variable Image_resize : Image -> Z * Z -> Exception + bytes.
Variable Image_save : Image -> string -> Exception + bytes.
Variable uuid4 : nat -> N.
Variable environ : gmap string string.
Variable from_connection_string : string -> Exception + BlobServiceClient.
Variable upload_fault : BlobClient -> bytes -> option Exception.
Variable BlobClient_url : BlobClient -> string.
Variable json_dumps : list (string * string) -> string.
Variable st_image : Image -> option Z -> Exception + unit.
Variable requests_post : string -> App.Files -> Exception + App.Response.
Variable requests_get : string -> Exception + App.Response.
Variable py_str : App.JSON -> string.
Variable not_subscriptable : App.JSON -> Exception.

Local Abbreviation generateThumbnail :=
  (main Image_open Image_resize Image_save uuid4 environ
     from_connection_string upload_fault BlobClient_url json_dumps).
Local Abbreviation script :=
  (App.app Image_open st_image requests_post requests_get py_str
     not_subscriptable).

(** X16. A file whose preview the front end decoded and drew, posted to a
    service that decodes with the same [Image.open].  Whenever the part
    reaches the service under a non-empty filename with the bytes that
    were uploaded, the service decodes it and never answers 400; an answer
    other than 200 is 500 [Error processing image], caused by a step after
    the decoding.  When the transport returns that status and body, the
    page shows [Error: Error processing image]. *)
Theorem previewed_upload_passes_the_file_checks
    (f : App.UploadedFile) (image : Image)
    (req : HttpRequest) (d : list (string * FileStorage)) (file : FileStorage)
    (w : World) (t : list App.Event) (response : App.Response) :
  Image_open (App.getvalue f) = inr image ->
  st_image image (Some 300) = inr tt ->
  files req = inr d ->
  MultiDict_get d "file" = Some file ->
  filename file <> "" ->
  content file = App.getvalue f ->
  let answer := fst (generateThumbnail req w) in
  let w' := snd (generateThumbnail req w) in
  requests_post App.azure_function_url (App.files_of f) = inr response ->
  App.status_code response = status_code answer ->
  App.text response = body answer ->
  status_code answer <> 400
  /\ (exists rest, calls w' = (calls w ++ CallOpen (App.getvalue f) true :: rest)%list)
  /\ (status_code answer <> 200 ->
      answer = HttpResponse_text "Error processing image" 500
      /\ fails_after_decode Image_resize Image_save uuid4 environ
           from_connection_string upload_fault file image w
      /\ script (Some f) true t =
           (inr tt,
            (t ++ App.page_top
               ++ [App.Show App.Page (App.Subheader "Original Image");
                   App.Show App.Page (App.Picture image (Some 300));
                   App.Show App.Page (App.Button "Generate Thumbnail");
                   App.SpinnerOn "Generating thumbnail...";
                   App.Post App.azure_function_url (App.files_of f) true;
                   App.Show App.Page
                     (App.Error ("Error: " +:+ "Error processing image"));
                   App.SpinnerOff]
               ++ App.sidebar)%list)).
Proof.
  intros Hopen Hdraw Hfiles Hget Hname Hcontent answer w' Hpost Hstatus Htext.
  assert (FileStorage_bool file = true) as Hbool.
  { unfold FileStorage_bool.
    destruct (String.eqb_spec (filename file) ""); [contradiction | reflexivity]. }
  assert (status_code answer <> 200 ->
          script (Some f) true t =
            (inr tt,
             (t ++ App.page_top
                ++ [App.Show App.Page (App.Subheader "Original Image");
                    App.Show App.Page (App.Picture image (Some 300));
                    App.Show App.Page (App.Button "Generate Thumbnail");
                    App.SpinnerOn "Generating thumbnail...";
                    App.Post App.azure_function_url (App.files_of f) true;
                    App.Show App.Page
                      (App.Error ("Error: " +:+ body answer));
                    App.SpinnerOff]
                ++ App.sidebar)%list)) as Hshown.
  { intros Hnot. rewrite <- Hstatus in Hnot. rewrite <- Htext.
    clear Hstatus Htext. clearbody answer w'.
    run_app. unfold App.files_of in Hpost.
    rewrite Hopen; simpl_app. rewrite Hdraw; simpl_app.
    rewrite Hpost; simpl_app.
    apply Z.eqb_neq in Hnot. rewrite Hnot. norm_calls. reflexivity. }
  clear Hpost Hstatus Htext. revert Hshown.
  subst answer w'. rewrite <- Hcontent in Hopen.
  run_service. rewrite Hfiles, Hget, Hbool; simpl_run.
  rewrite Hopen; simpl_run. rewrite <- Hcontent.
  repeat step; norm_calls; intros Hshown;
    (split; [discriminate|]); (split; [eexists; reflexivity|]);
    intros Hnot; try (exfalso; apply Hnot; reflexivity);
    (split; [reflexivity|]); (split; [|exact (Hshown Hnot)]).
  all: solve [ econstructor; eassumption ].
Qed.

End EndToEnd.

(** * The further properties on concrete runs *)

(** X1 on a request whose body cannot be parsed. *)
Lemma unreadable_request_is_500_witness :
  let run :=
    Demo.run Demo.environ Demo.no_fault
      (mkHttpRequest (inl (mkException "ValueError" "malformed multipart body")))
      Demo.empty_world in
  fst run = HttpResponse_text "Error processing request" 500
  /\ calls (snd run) = []
  /\ logs (snd run) =
       [(INFO, "Processing an image upload to generate a thumbnail.");
        (ERROR, "Error reading file: malformed multipart body")].
Proof.
  destruct (unreadable_request_is_500
              Demo.Image_open Demo.Image_resize Demo.Image_save Demo.uuid4
              Demo.environ Demo.from_connection_string Demo.no_fault
              Demo.BlobClient_url Demo.json_dumps
              (mkHttpRequest
                 (inl (mkException "ValueError" "malformed multipart body")))
              Demo.empty_world
              (mkException "ValueError" "malformed multipart body") eq_refl)
    as (Hresp & Hcalls & _ & _ & Hlogs).
  cbv zeta. split; [exact Hresp|]. split; [exact Hcalls | exact Hlogs].
Defined.

(** X3 on an empty store and on a store that already holds an object under
    the name the run is going to use. *)
Lemma response_independent_of_store_witness :
  let run := Demo.run Demo.environ Demo.no_fault
               (Demo.request_of Demo.jpeg_1000x500) in
  fst (run Demo.empty_world) = fst (run DemoApp.occupied_world)
  /\ draws (snd (run Demo.empty_world)) = draws (snd (run DemoApp.occupied_world)).
Proof.
  exact (response_independent_of_store
           Demo.Image_open Demo.Image_resize Demo.Image_save Demo.uuid4
           Demo.environ Demo.from_connection_string Demo.no_fault
           Demo.BlobClient_url Demo.json_dumps
           (Demo.request_of Demo.jpeg_1000x500) Demo.empty_world
           DemoApp.occupied_world eq_refl).
Defined.

(** X5 on a body with a text part first and two parts named [file]. *)
Lemma first_file_part_is_processed_witness :
  Demo.run Demo.environ Demo.no_fault
    (mkHttpRequest
       (inr [("note", Demo.garbage); ("file", Demo.jpeg_1000x500);
             ("file", Demo.garbage)]))
    Demo.empty_world
  = Demo.run Demo.environ Demo.no_fault
      (Demo.request_of Demo.jpeg_1000x500) Demo.empty_world.
Proof.
  exact (first_file_part_is_processed
           Demo.Image_open Demo.Image_resize Demo.Image_save Demo.uuid4
           Demo.environ Demo.from_connection_string Demo.no_fault
           Demo.BlobClient_url Demo.json_dumps
           [("note", Demo.garbage)] [("file", Demo.garbage)]
           Demo.jpeg_1000x500 Demo.empty_world eq_refl).
Defined.

(** X6 on the same JPEG declared as an octet stream. *)
Lemma content_type_is_ignored_witness :
  let relabelled :=
    mkFileStorage (filename Demo.jpeg_1000x500) (content Demo.jpeg_1000x500)
      "application/octet-stream" in
  Demo.run Demo.environ Demo.no_fault
    (Demo.request_of Demo.jpeg_1000x500) Demo.empty_world
  = Demo.run Demo.environ Demo.no_fault
      (Demo.request_of relabelled) Demo.empty_world.
Proof.
  exact (content_type_is_ignored
           Demo.Image_open Demo.Image_resize Demo.Image_save Demo.uuid4
           Demo.environ Demo.from_connection_string Demo.no_fault
           Demo.BlobClient_url Demo.json_dumps
           [("file", Demo.jpeg_1000x500)]
           [("file",
             mkFileStorage (filename Demo.jpeg_1000x500)
               (content Demo.jpeg_1000x500) "application/octet-stream")]
           Demo.jpeg_1000x500
           (mkFileStorage (filename Demo.jpeg_1000x500)
              (content Demo.jpeg_1000x500) "application/octet-stream")
           Demo.empty_world eq_refl eq_refl eq_refl eq_refl).
Defined.

(** X7 on the 300 by 400 PNG. *)
Lemma ok_response_means_both_stored_witness :
  let w' :=
    snd (Demo.run Demo.environ Demo.no_fault
           (Demo.request_of Demo.png_300x400) Demo.empty_world) in
  exists file jpeg,
    let name := original_blob_name_of (Demo.uuid4 0) file in
    blobs w' !! ("originalimages", name) = Some (content file)
    /\ blobs w' !! ("thumbnails", thumbnail_blob_name_of name) = Some jpeg.
Proof.
  destruct (ok_response_means_both_stored
              Demo.Image_open Demo.Image_resize Demo.Image_save Demo.uuid4
              Demo.environ Demo.from_connection_string Demo.no_fault
              Demo.BlobClient_url Demo.json_dumps
              (Demo.request_of Demo.png_300x400) Demo.empty_world)
    as (d & file & image & thumb & jpeg & conn_str & client & H).
  - vm_compute. reflexivity.
  - cbv zeta in H.
    destruct H as (_ & _ & _ & _ & _ & _ & _ & Horig & Hthumb & _).
    exists file, jpeg. split; [exact Horig | exact Hthumb].
Defined.

(** X10 on a file the decoder rejects. *)
Lemma undecodable_preview_stops_the_script_witness :
  DemoApp.script DemoApp.post_ok DemoApp.get_ok
    (Some DemoApp.broken_upload) true []
  = (inl (mkException "UnidentifiedImageError" "cannot identify image file"),
     (App.page_top
        ++ [App.Show App.Page (App.Subheader "Original Image")])%list).
Proof.
  exact (undecodable_preview_stops_the_script
           Demo.Image_open DemoApp.st_image DemoApp.post_ok DemoApp.get_ok DemoApp.py_str
           DemoApp.not_subscriptable DemoApp.broken_upload true []
           (mkException "UnidentifiedImageError" "cannot identify image file")
           eq_refl).
Defined.

(** X11 on a good upload with the thumbnail host down. *)
Lemma script_completes_when_preview_decodes_witness :
  fst (DemoApp.script DemoApp.post_ok DemoApp.get_down
         (Some DemoApp.upload) true []) = inr tt.
Proof.
  refine (proj1 (script_completes_when_preview_decodes
                   Demo.Image_open DemoApp.st_image DemoApp.post_ok DemoApp.get_down
                   DemoApp.py_str DemoApp.not_subscriptable
                   (Some DemoApp.upload) true [] _)).
  intros f Hf. injection Hf as <-. eexists. split; reflexivity.
Defined.

(** X12 on a service that answers 500. *)
Lemma service_error_is_shown_witness :
  snd (DemoApp.script DemoApp.post_error DemoApp.get_ok
         (Some DemoApp.upload) true [])
  = (App.page_top
       ++ [App.Show App.Page (App.Subheader "Original Image");
           App.Show App.Page (App.Picture Demo.image_1000x500 (Some 300));
           App.Show App.Page (App.Button "Generate Thumbnail");
           App.SpinnerOn "Generating thumbnail...";
           App.Post App.azure_function_url (App.files_of DemoApp.upload) true;
           App.Show App.Page (App.Error "Error: Error processing image");
           App.SpinnerOff]
       ++ App.sidebar)%list.
Proof.
  unfold DemoApp.script.
  rewrite (service_error_is_shown
             Demo.Image_open DemoApp.st_image DemoApp.post_error DemoApp.get_ok DemoApp.py_str
             DemoApp.not_subscriptable DemoApp.upload Demo.image_1000x500 []
             DemoApp.error_response eq_refl eq_refl eq_refl).
  - reflexivity.
  - vm_compute. discriminate.
Defined.

(** X14 on a service that answers 200 and a thumbnail that can be
    fetched. *)
Lemma thumbnail_and_links_are_shown_witness :
  let evs :=
    snd (DemoApp.script DemoApp.post_ok DemoApp.get_ok
           (Some DemoApp.upload) true []) in
  evs !! 11%nat = Some (App.Get DemoApp.thumbnail_url true)
  /\ evs !! 12%nat
     = Some (App.Show (App.Column 1) (App.Picture Demo.thumb_128x64 None))
  /\ evs !! 14%nat
     = Some (App.Show (App.Column 2)
               (App.Markdown
                  ("[Download Thumbnail](" +:+ DemoApp.thumbnail_url +:+ ")"))).
Proof.
  unfold DemoApp.script.
  rewrite (thumbnail_and_links_are_shown
             Demo.Image_open DemoApp.st_image DemoApp.post_ok DemoApp.get_ok DemoApp.py_str
             DemoApp.not_subscriptable DemoApp.upload Demo.image_1000x500
             Demo.thumb_128x64 [] DemoApp.ok_response
             DemoApp.thumbnail_response DemoApp.urls DemoApp.original_url
             DemoApp.thumbnail_url
             eq_refl eq_refl eq_refl eq_refl eq_refl eq_refl eq_refl eq_refl
             eq_refl eq_refl).
  repeat split.
Defined.

(** X15 on a service that answers 200 and a thumbnail host that is down. *)
Lemma success_then_error_when_fetch_fails_witness :
  let evs :=
    snd (DemoApp.script DemoApp.post_ok DemoApp.get_down
           (Some DemoApp.upload) true []) in
  evs !! 8%nat
  = Some (App.Show App.Page (App.Success "Thumbnail generated successfully!"))
  /\ evs !! 12%nat
     = Some (App.Show App.Page
               (App.Error
                  "Error connecting to Azure Function: Max retries exceeded")).
Proof.
  unfold DemoApp.script.
  rewrite (success_then_error_when_fetch_fails
             Demo.Image_open DemoApp.st_image DemoApp.post_ok DemoApp.get_down DemoApp.py_str
             DemoApp.not_subscriptable DemoApp.upload Demo.image_1000x500 []
             DemoApp.ok_response DemoApp.urls
             (App.JString DemoApp.original_url)
             (App.JString DemoApp.thumbnail_url)
             (mkException "ConnectionError" "Max retries exceeded")
             eq_refl eq_refl eq_refl eq_refl eq_refl eq_refl eq_refl eq_refl).
  repeat split.
Defined.

(** X16 on the demo service with its store down. *)
Lemma previewed_upload_passes_the_file_checks_witness :
  let answer :=
    fst (Demo.run Demo.environ Demo.store_down
           (DemoApp.deliver (App.files_of DemoApp.upload)) Demo.empty_world) in
  status_code answer <> 400
  /\ answer = HttpResponse_text "Error processing image" 500.
Proof.
  destruct (previewed_upload_passes_the_file_checks
              Demo.Image_open Demo.Image_resize Demo.Image_save Demo.uuid4
              Demo.environ Demo.from_connection_string Demo.store_down
              Demo.BlobClient_url Demo.json_dumps DemoApp.st_image
              (DemoApp.post_to_service Demo.store_down Demo.empty_world)
              DemoApp.get_ok DemoApp.py_str DemoApp.not_subscriptable
              DemoApp.upload Demo.image_1000x500
              (DemoApp.deliver (App.files_of DemoApp.upload))
              [("file", Demo.jpeg_1000x500)] Demo.jpeg_1000x500
              Demo.empty_world []
              (App.mkResponse 500 "Error processing image" [] DemoApp.no_json))
    as (Hnot400 & _ & Hfail).
  - reflexivity.
  - reflexivity.
  - reflexivity.
  - reflexivity.
  - vm_compute. discriminate.
  - reflexivity.
  - vm_compute. reflexivity.
  - vm_compute. reflexivity.
  - vm_compute. reflexivity.
  - cbv zeta. split; [exact Hnot400|].
    apply Hfail. vm_compute. discriminate.
Defined.
